(** * The contact-form handler of portfolio-2.0-cdk ([lambda/index.js])

    A shallow embedding of the Lambda handler that relays contact-form
    submissions to the Resend email API, and the properties of its
    request/response contract.

    The handler is asynchronous JavaScript.  It is embedded as a
    computation in a state-and-exception monad [M]:
    - the state is the chronological [trace] of the effects performed so
      far (console output, calls to Secrets Manager, calls to the email
      API);
    - an exceptional outcome [Throw e] stands for a thrown exception or,
      for the [async] functions, a rejected promise.

    What the file does not define itself is taken as a parameter:
    - the JavaScript built-ins ([JSON.parse], [JSON.stringify], number
      formatting, the text of the engine's [TypeError]s) are the fields of
      an [engine];
    - the environment and the two collaborators (the Secrets Manager client
      and the Resend client) are the fields of a [world]; the answers of
      the network calls may depend on the whole history of effects.

    Values are those a deserialised JSON payload can hold, plus
    [undefined].  Exceptions are [Error] instances (a name and a message):
    this is what the handler itself, the built-ins it uses and both SDK
    clients throw.  An awaited call is assumed to settle. *)

From Stdlib Require Import ZArith Ascii String Floats.SpecFloat.
From stdpp Require Import base strings list gmap.

Set Warnings "-register-all".

Local Open Scope string_scope.
Local Open Scope list_scope.
Local Open Scope Z_scope.

(** ** JavaScript values *)

(** A number is an IEEE-754 double, kept as data: only its class (zero,
    NaN, other) is ever inspected. *)
Inductive value : Type :=
| VUndefined
| VNull
| VBool (b : bool)
| VNum (x : spec_float)
| VStr (s : string)
| VArr (items : list value)
| VObj (props : list (string * value)).

(** [typeof v] *)
Definition typeof (v : value) : string :=
  match v with
  | VUndefined => "undefined"
  | VNull => "object"
  | VBool _ => "boolean"
  | VNum _ => "number"
  | VStr _ => "string"
  | VArr _ => "object"
  | VObj _ => "object"
  end.

(** ToBoolean: [undefined], [null], [false], [+0], [-0], [NaN] and the
    empty string are falsy, everything else is truthy. *)
Definition truthy (v : value) : bool :=
  match v with
  | VUndefined | VNull => false
  | VBool b => b
  | VNum (S754_zero _) | VNum S754_nan => false
  | VNum _ => true
  | VStr s => negb (String.eqb s "")
  | VArr _ | VObj _ => true
  end.

(** [a === b] where [b] is a string literal. *)
Definition strict_eq_string (a : value) (b : string) : bool :=
  match a with
  | VStr s => String.eqb s b
  | _ => false
  end.

(** An own property of an object literal; property names are unique in an
    object, the first binding is the one that is read. *)
Fixpoint own_property (k : string) (props : list (string * value)) : option value :=
  match props with
  | [] => None
  | (k', v) :: rest => if String.eqb k k' then Some v else own_property k rest
  end.

(** ** Exceptions *)

Record error : Type := { err_name : string; err_message : string }.

(** [new Error(message)] *)
Definition Error (message : string) : error :=
  {| err_name := "Error"; err_message := message |}.

(** [Error.prototype.toString] *)
Definition Error_toString (e : error) : string :=
  if String.eqb (err_name e) "" then err_message e
  else if String.eqb (err_message e) "" then err_name e
  else err_name e +:+ ": " +:+ err_message e.

(** The places where the engine raises a [TypeError] in this program. *)
Inductive type_error : Type :=
| ReadPropertyOf (o : value) (k : string)   (* o.k with o undefined or null *)
| DestructureOf (o : value)                 (* const { .. } = o with o undefined or null *)
| ToPrimitive.                              (* an object with no usable toString/valueOf *)

Inductive result (A : Type) : Type :=
| Ok (a : A)
| Throw (e : error).
Arguments Ok {A} a.
Arguments Throw {A} e.

#[global] Instance result_ret : MRet result := λ A a, Ok a.
#[global] Instance result_bind : MBind result := λ A B f r,
  match r with
  | Ok a => f a
  | Throw e => Throw e
  end.

(** ** The engine: built-ins that the program calls *)

Record engine : Type := {
  JSON_parse : string → result value;        (* throws a SyntaxError on malformed text *)
  JSON_stringify : value → value;            (* a string, or undefined *)
  Number_toString : spec_float → string;
  TypeError_message : type_error → string;
}.

Definition TypeError (E : engine) (k : type_error) : error :=
  {| err_name := "TypeError"; err_message := TypeError_message E k |}.

(** [o.k], for the property names this program reads ([headers], [origin],
    [Origin], [requestContext], [http], [method], [body], [name], [email],
    [message], [SecretString]): none of them is inherited from a built-in
    prototype, so on anything but [undefined] and [null] the read is an
    own-property lookup. *)
Definition get_prop (E : engine) (o : value) (k : string) : result value :=
  match o with
  | VUndefined | VNull => Throw (TypeError E (ReadPropertyOf o k))
  | VObj props => Ok (default VUndefined (own_property k props))
  | VBool _ | VNum _ | VStr _ | VArr _ => Ok VUndefined
  end.

(** ToString, as applied by a template literal.  An object deserialised
    from JSON converts through [Object.prototype.toString] unless an own
    (hence non-callable) [toString] property shadows it; an array converts
    through [join]. *)
Fixpoint ToString (E : engine) (v : value) : result string :=
  match v with
  | VUndefined => Ok "undefined"
  | VNull => Ok "null"
  | VBool true => Ok "true"
  | VBool false => Ok "false"
  | VNum x => Ok (Number_toString E x)
  | VStr s => Ok s
  | VArr items =>
      (fix join (l : list value) : result string :=
         match l with
         | [] => Ok ""
         | x :: rest =>
             s ← match x with
                 | VUndefined | VNull => Ok ""
                 | _ => ToString E x
                 end;
             match rest with
             | [] => Ok s
             | _ :: _ => r ← join rest; Ok (s +:+ "," +:+ r)
             end
         end) items
  | VObj props =>
      match own_property "toString" props with
      | Some _ => Throw (TypeError E ToPrimitive)
      | None => Ok "[object Object]"
      end
  end.

(** ** Effects *)

Record email : Type := {
  from : string;
  to : string;
  subject : string;
  html : string;
}.

(** The client object built by [new Resend(key)]. *)
Record Resend : Type := { resend_key : value }.

Inductive log_arg : Type :=
| LogV (v : value)
| LogE (e : error).

Inductive io_event : Type :=
| ConsoleLog (args : list log_arg)
| ConsoleError (args : list log_arg)
| GetSecretValue (SecretId : value)
| EmailsSend (client : Resend) (payload : email).

Definition trace : Type := list io_event.

(** A computation: from the history so far to an outcome and the extended
    history. *)
Definition M (A : Type) : Type := trace → result A * trace.

#[global] Instance M_ret : MRet M := λ A a t, (Ok a, t).
#[global] Instance M_bind : MBind M := λ A B f m t,
  match m t with
  | (Ok a, t') => f a t'
  | (Throw e, t') => (Throw e, t')
  end.

Definition throw {A : Type} (e : error) : M A := λ t, (Throw e, t).

Definition lift {A : Type} (r : result A) : M A := λ t, (r, t).

(** [try { body } catch (error) { handler error }] *)
Definition try_catch {A : Type} (body : M A) (handler : error → M A) : M A := λ t,
  match body t with
  | (Ok a, t') => (Ok a, t')
  | (Throw e, t') => handler e t'
  end.

Definition emit (ev : io_event) : M unit := λ t, (Ok tt, t ++ [ev]).

Definition console_log (args : list log_arg) : M unit := emit (ConsoleLog args).
Definition console_error (args : list log_arg) : M unit := emit (ConsoleError args).

(** ** The world: environment and collaborators *)

Record world : Type := {
  process_env : gmap string string;
  (* sm.getSecretValue({ SecretId }): the response object, or a rejection *)
  sm_getSecretValue : value → trace → result value;
  (* new Resend(key) *)
  new_Resend : value → result Resend;
  (* resend.emails.send(payload): the result, or a rejection *)
  emails_send : Resend → email → trace → result value;
}.

(** ** The program *)

Section Program.

Context (E : engine) (W : world).

(** [process.env.NAME]: a string, or [undefined] when the variable is unset. *)
Definition env_var (name : string) : value :=
  match process_env W !! name with
  | Some s => VStr s
  | None => VUndefined
  end.

(** [await sm.getSecretValue({ SecretId })] *)
Definition await_getSecretValue (SecretId : value) : M value := λ t,
  let t' := t ++ [GetSecretValue SecretId] in
  (sm_getSecretValue W SecretId t', t').

(** [await resend.emails.send(payload)] *)
Definition await_emails_send (resend : Resend) (payload : email) : M value := λ t,
  let t' := t ++ [EmailsSend resend payload] in
  (emails_send W resend payload t', t').

Definition secret_name_unset_message : string :=
  "RESEND_API_KEY_SECRET_NAME is not set in the environment variables".

Definition getResendApiKey : M value :=
  let secretName := env_var "RESEND_API_KEY_SECRET_NAME" in
  if negb (truthy secretName) then
    console_error [LogV (VStr secret_name_unset_message)];;
    throw (Error secret_name_unset_message)
  else
    try_catch
      (secret ← await_getSecretValue secretName;
       lift (get_prop E secret "SecretString"))
      (λ error,
         console_error [LogV (VStr "Error retrieving secret:"); LogE error];;
         throw error).

(** The destructuring pattern [{ name, email, message }]. *)
Definition destructure_fields (o : value) : result (value * value * value) :=
  match o with
  | VUndefined | VNull => Throw (TypeError E (DestructureOf o))
  | _ =>
      name ← get_prop E o "name";
      email ← get_prop E o "email";
      message ← get_prop E o "message";
      Ok (name, email, message)
  end.

Definition nl : string := String "010"%char "".

(** The template literal of [sendEmail]; its four substitutions are
    converted left to right. *)
Definition contact_html (name email message : value) : result string :=
  n1 ← ToString E name;
  n2 ← ToString E name;
  e ← ToString E email;
  m ← ToString E message;
  Ok (nl +:+ "      <h1>" +:+ n1 +:+ " contacted you through your portfolio contact form.</h1>"
      +:+ nl +:+ "      <p><strong>Name:</strong> " +:+ n2 +:+ "</p>"
      +:+ nl +:+ "      <p><strong>Email:</strong> " +:+ e +:+ "</p>"
      +:+ nl +:+ "      <p><strong>Message:</strong> " +:+ m +:+ "</p>"
      +:+ nl +:+ "    ").

Definition sendEmail (resend : Resend) (body : value) : M value :=
  '(name, email, message) ← lift (destructure_fields body);
  console_log [LogV (VStr "Sending email with data:");
               LogV (JSON_stringify E (VObj [("name", name); ("email", email); ("message", message)]))];;
  html ← lift (contact_html name email message);
  await_emails_send resend
    {| from := "portfoliocontact@resend.dev";
       to := "fialloschris1@gmail.com";
       subject := "New Contact Form Submission";
       html := html |}.

(** [event.body] is read once: the read has no effect. [JSON.parse]
    converts its argument with ToString, the identity on a string. *)
Definition parseEventBody (event : value) : M value :=
  console_log [LogV (VStr "Parsing event body:"); LogV (JSON_stringify E event)];;
  body ← lift (get_prop E event "body");
  if String.eqb (typeof body) "string" then
    text ← lift (ToString E body);
    lift (JSON_parse E text)
  else if String.eqb (typeof body) "object" then
    mret body
  else
    throw (Error "Invalid event body").

Definition validateBody (body : value) : M value :=
  console_log [LogV (VStr "Validating body:"); LogV (JSON_stringify E body)];;
  '(name, email, message) ← lift (destructure_fields body);
  if negb (truthy name) || negb (truthy email) || negb (truthy message) then
    throw (Error "Missing required fields")
  else
    mret body.

Record response : Type := {
  statusCode : Z;
  headers : list (string * string);
  body : value;
}.

(** [error] is [null] ([None]) or the caught exception, an object, hence
    truthy; [origin] is not used. *)
Definition createResponse (statusCode : Z) (message : string)
    (error : option error) (origin : value) : response :=
  {| statusCode := statusCode;
     headers := [("Access-Control-Allow-Headers", "Content-Type");
                 ("Access-Control-Allow-Methods", "POST, OPTIONS")];
     body := JSON_stringify E
               (VObj (("message", VStr message) ::
                      match error with
                      | Some e => [("error", VStr (Error_toString e))]
                      | None => []
                      end)) |}.

(** The block guarded by [try] in [handler]. *)
Definition handler_try (event origin : value) : M response :=
  key ← getResendApiKey;
  resend ← lift (new_Resend W key);
  body ← parseEventBody event;
  validatedBody ← validateBody body;
  result ← sendEmail resend validatedBody;
  console_log [LogV (VStr "Email sent successfully:"); LogV (JSON_stringify E result)];;
  mret (createResponse 200 "Email sent successfully" None origin).

(** [event.headers.origin || event.headers.Origin] *)
Definition request_origin (event : value) : result value :=
  headers ← get_prop E event "headers";
  origin ← get_prop E headers "origin";
  if truthy origin then Ok origin
  else
    headers ← get_prop E event "headers";
    get_prop E headers "Origin".

(** [event.requestContext.http.method] *)
Definition request_method (event : value) : result value :=
  requestContext ← get_prop E event "requestContext";
  http ← get_prop E requestContext "http";
  get_prop E http "method".

(** [exports.handler]; an outcome [Throw] is a rejection of the promise it
    returns. *)
Definition handler (event : value) : M response :=
  console_log [LogV (VStr "Received event:"); LogV (JSON_stringify E event)];;
  origin ← lift (request_origin event);
  method ← lift (request_method event);
  if strict_eq_string method "OPTIONS" then
    mret (createResponse 200 "Preflight request successful" None origin)
  else
    try_catch
      (handler_try event origin)
      (λ error,
         console_error [LogV (VStr "Lambda function error:"); LogE error];;
         mret (createResponse 500 "Internal server error" (Some error) origin)).

End Program.

(** ** Vocabulary of the specification *)

(** The trigger of the handler: an event with a [headers] map, a
    [requestContext.http.method] string and, possibly, a [body]. *)
Definition is_http_event (event : value) : bool :=
  match event with
  | VObj props =>
      match own_property "headers" props, own_property "requestContext" props with
      | Some (VObj _), Some (VObj rc) =>
          match own_property "http" rc with
          | Some (VObj http) =>
              match own_property "method" http with
              | Some (VStr _) => true
              | _ => false
              end
          | _ => false
          end
      | _, _ => false
      end
  | _ => false
  end.

(** The request is a CORS preflight: its method is [OPTIONS]. *)
Definition is_preflight (E : engine) (event : value) : bool :=
  match request_method E event with
  | Ok method => strict_eq_string method "OPTIONS"
  | Throw _ => false
  end.

(** The body carried by an event ([undefined] when there is none). *)
Definition request_body (event : value) : value :=
  match event with
  | VObj props => default VUndefined (own_property "body" props)
  | _ => VUndefined
  end.

(** The first effect of every invocation. *)
Definition received (E : engine) (event : value) : io_event :=
  ConsoleLog [LogV (VStr "Received event:"); LogV (JSON_stringify E event)].

(** The effect that opens every run of [parseEventBody]. *)
Definition parsing (E : engine) (event : value) : io_event :=
  ConsoleLog [LogV (VStr "Parsing event body:"); LogV (JSON_stringify E event)].

(** Body parsing yields [b]: [parseEventBody] returns it, whatever the
    history. *)
Definition parses_to (E : engine) (event b : value) : Prop :=
  ∀ t, parseEventBody E event t = (Ok b, t ++ [parsing E event]).

(** Field [k] of a parsed body is present and truthy. *)
Definition field_truthy (k : string) (b : value) : bool :=
  match b with
  | VObj props =>
      match own_property k props with
      | Some v => truthy v
      | None => false
      end
  | _ => false
  end.

(** Field [k] of a parsed body is a non-empty string. *)
Definition field_nonempty_string (k : string) (b : value) : bool :=
  match b with
  | VObj props =>
      match own_property k props with
      | Some (VStr s) => negb (String.eqb s "")
      | _ => false
      end
  | _ => false
  end.

(** A parsed body in which one of [name], [email], [message] is missing or
    falsy. *)
Definition missing_required_field (b : value) : bool :=
  negb (field_truthy "name" b && field_truthy "email" b && field_truthy "message" b).

(** A valid contact request body: [name], [email] and [message] are
    non-empty strings. *)
Definition valid_contact (b : value) : bool :=
  field_nonempty_string "name" b && field_nonempty_string "email" b
  && field_nonempty_string "message" b.

(** The field [k] of a parsed body, as the destructuring pattern reads it. *)
Definition field (k : string) (b : value) : value :=
  match b with
  | VObj props => default VUndefined (own_property k props)
  | _ => VUndefined
  end.

(** The calls made to the email API, oldest first. *)
Fixpoint email_api_calls (t : trace) : list (Resend * email) :=
  match t with
  | [] => []
  | EmailsSend client payload :: rest => (client, payload) :: email_api_calls rest
  | _ :: rest => email_api_calls rest
  end.

(** The calls made to the secret store, oldest first. *)
Fixpoint secret_store_calls (t : trace) : list value :=
  match t with
  | [] => []
  | GetSecretValue id :: rest => id :: secret_store_calls rest
  | _ :: rest => secret_store_calls rest
  end.

(** The number of times body parsing was entered: [parseEventBody]
    announces itself on the console before anything else. *)
Fixpoint body_parses (t : trace) : nat :=
  match t with
  | [] => 0%nat
  | ConsoleLog (LogV (VStr "Parsing event body:") :: _) :: rest => S (body_parses rest)
  | _ :: rest => body_parses rest
  end.

(** The collaborators work: whenever it is asked, the secret store
    delivers a key from which a client can be built, and that client's
    dispatches are accepted. *)
Definition working_collaborators (E : engine) (W : world) : Prop :=
  ∀ t, ∃ key t' resend,
    getResendApiKey E W t = (Ok key, t') ∧
    new_Resend W key = Ok resend ∧
    ∀ payload t'', ∃ result, emails_send W resend payload t'' = Ok result.

(** The message the handler dispatches for the fields [name], [email] and
    [message], given the text of its HTML part. *)
Definition contact_email (html : string) : email :=
  {| from := "portfoliocontact@resend.dev";
     to := "fialloschris1@gmail.com";
     subject := "New Contact Form Submission";
     html := html |}.

Definition fixed_headers : list (string * string) :=
  [("Access-Control-Allow-Headers", "Content-Type");
   ("Access-Control-Allow-Methods", "POST, OPTIONS")].

(** The console lines that open [validateBody] and [sendEmail], and those
    that close a run of the handler. *)
Definition validating (E : engine) (b : value) : io_event :=
  ConsoleLog [LogV (VStr "Validating body:"); LogV (JSON_stringify E b)].

Definition sending (E : engine) (name email message : value) : io_event :=
  ConsoleLog [LogV (VStr "Sending email with data:");
              LogV (JSON_stringify E
                      (VObj [("name", name); ("email", email); ("message", message)]))].

Definition failure_logged (e : error) : io_event :=
  ConsoleError [LogV (VStr "Lambda function error:"); LogE e].

Definition success_logged (E : engine) (result : value) : io_event :=
  ConsoleLog [LogV (VStr "Email sent successfully:"); LogV (JSON_stringify E result)].

(** A failure [e] arises while the request [event], received after the
    history [t], is processed: the guarded block of the handler throws it. *)
Definition processing_fails (E : engine) (W : world) (event : value) (t : trace)
    (e : error) : Prop :=
  is_preflight E event = false ∧
  ∃ origin t1,
    request_origin E event = Ok origin ∧
    handler_try E W event origin (t ++ [received E event]) = (Throw e, t1).

(** ** A concrete engine, world and requests

    Stand-ins on which the statements below are exercised: the engine
    parses the request texts used here and nothing else, serialises
    without escaping and prints every number but 42 as a placeholder. *)

Module Sample.

Definition quote : string := String "034"%char "".

(** The text [{"name":"Alice","email":"a@example.com","message":"hi"}]. *)
Definition alice_text : string :=
  "{" +:+ quote +:+ "name" +:+ quote +:+ ":" +:+ quote +:+ "Alice" +:+ quote +:+ ","
  +:+ quote +:+ "email" +:+ quote +:+ ":" +:+ quote +:+ "a@example.com" +:+ quote +:+ ","
  +:+ quote +:+ "message" +:+ quote +:+ ":" +:+ quote +:+ "hi" +:+ quote +:+ "}".

Definition alice : value :=
  VObj [("name", VStr "Alice"); ("email", VStr "a@example.com"); ("message", VStr "hi")].

(** The text [{"name":"Alice","email":"a@example.com"}]. *)
Definition no_message_text : string :=
  "{" +:+ quote +:+ "name" +:+ quote +:+ ":" +:+ quote +:+ "Alice" +:+ quote +:+ ","
  +:+ quote +:+ "email" +:+ quote +:+ ":" +:+ quote +:+ "a@example.com" +:+ quote +:+ "}".

Definition no_message : value :=
  VObj [("name", VStr "Alice"); ("email", VStr "a@example.com")].

(** The double 42 = 0x15 * 2^1. *)
Definition forty_two : value := VNum (S754_finite false 21 1).

Definition numbers : value :=
  VObj [("name", forty_two); ("email", forty_two); ("message", forty_two)].

Definition number_text (x : spec_float) : string :=
  match x with
  | S754_finite false 21 1 => "42"
  | _ => "<number>"
  end.

Definition join (sep : string) (parts : list string) : string :=
  match parts with
  | [] => ""
  | p :: rest => foldl (λ acc q, acc +:+ sep +:+ q) p rest
  end.

(** Serialisation without escaping; [None] is [undefined]. *)
Fixpoint stringify_text (v : value) : option string :=
  match v with
  | VUndefined => None
  | VNull => Some "null"
  | VBool true => Some "true"
  | VBool false => Some "false"
  | VNum x => Some (number_text x)
  | VStr s => Some (quote +:+ s +:+ quote)
  | VArr items =>
      Some ("[" +:+ join "," (map (λ x, default "null" (stringify_text x)) items) +:+ "]")
  | VObj props =>
      Some ("{" +:+ join ","
              (omap (λ p, s ← stringify_text p.2; Some (quote +:+ p.1 +:+ quote +:+ ":" +:+ s)) props)
            +:+ "}")
  end.

Definition builtins : engine :=
  {| JSON_parse text :=
       if String.eqb text alice_text then Ok alice
       else if String.eqb text no_message_text then Ok no_message
       else if String.eqb text "null" then Ok VNull
       else Throw {| err_name := "SyntaxError"; err_message := "Unexpected token" |};
     JSON_stringify v :=
       match stringify_text v with
       | Some s => VStr s
       | None => VUndefined
       end;
     Number_toString := number_text;
     TypeError_message k :=
       match k with
       | ReadPropertyOf _ _ => "Cannot read properties of undefined or null"
       | DestructureOf _ => "Cannot destructure a property of undefined or null"
       | ToPrimitive => "Cannot convert object to primitive value"
       end |}.

(** A request event in the shape the function URL delivers. *)
Definition request (method : string) (hs : list (string * value)) (b : option value) : value :=
  VObj ([("headers", VObj hs);
         ("requestContext", VObj [("http", VObj [("method", VStr method)])])]
        ++ match b with Some v => [("body", v)] | None => [] end).

Definition site : list (string * value) :=
  [("content-type", VStr "application/json"); ("origin", VStr "https://christopher-fiallos.com")].

Definition post_alice : value := request "POST" site (Some (VStr alice_text)).
Definition post_alice_object : value := request "POST" site (Some alice).
Definition post_no_message : value := request "POST" site (Some (VStr no_message_text)).
Definition post_numbers : value := request "POST" site (Some numbers).
Definition post_null : value := request "POST" site (Some VNull).
Definition post_forty_two : value := request "POST" site (Some forty_two).
Definition post_malformed : value := request "POST" site (Some (VStr "{not json")).
Definition options_alice : value := request "OPTIONS" site (Some (VStr alice_text)).

(** A body that passes validation although its [name] cannot be converted
    to text: the own property [toString] shadows the inherited method. *)
Definition shadowed : value :=
  VObj [("name", VObj [("toString", forty_two)]); ("email", VStr "a@example.com");
        ("message", VStr "hi")].

Definition post_shadowed : value := request "POST" site (Some shadowed).

(** A payload that is not an HTTP request event. *)
Definition empty_payload : value := VObj [].

Definition secret_name_set : gmap string string :=
  {[ "RESEND_API_KEY_SECRET_NAME" := "resend-api-key" ]}.

(** A secret store that holds the key, and an email API that accepts every
    dispatch. *)
Definition working : world :=
  {| process_env := secret_name_set;
     sm_getSecretValue id t := Ok (VObj [("SecretString", VStr "re_123")]);
     new_Resend key :=
       if truthy key then Ok {| resend_key := key |}
       else Throw (Error "Missing API key");
     emails_send client payload t :=
       Ok (VObj [("data", VObj [("id", VStr "1")]); ("error", VNull)]) |}.

(** The same collaborators, with the secret name left out of the
    environment. *)
Definition unconfigured : world :=
  {| process_env := ∅;
     sm_getSecretValue := sm_getSecretValue working;
     new_Resend := new_Resend working;
     emails_send := emails_send working |}.

End Sample.

(** ** Further vocabulary *)

(** A computation whose outcome and effects do not depend on the history
    it starts from. *)
Definition uniform {A : Type} (m : M A) : Prop :=
  ∃ r evs, ∀ t, m t = (r, t ++ evs).

(** Collaborators that answer a call in the same way whatever happened
    before. *)
Definition memoryless (W : world) : Prop :=
  (∀ id t t', sm_getSecretValue W id t = sm_getSecretValue W id t') ∧
  (∀ client payload t t', emails_send W client payload t = emails_send W client payload t').

(** The console line of the inner [catch] of [getResendApiKey]. *)
Definition secret_error_logged (e : error) : io_event :=
  ConsoleError [LogV (VStr "Error retrieving secret:"); LogE e].

(** The HTML part of the message for string fields, written out. *)
Definition contact_page (name email message : string) : string :=
  nl +:+ "      <h1>" +:+ name +:+ " contacted you through your portfolio contact form.</h1>"
  +:+ nl +:+ "      <p><strong>Name:</strong> " +:+ name +:+ "</p>"
  +:+ nl +:+ "      <p><strong>Email:</strong> " +:+ email +:+ "</p>"
  +:+ nl +:+ "      <p><strong>Message:</strong> " +:+ message +:+ "</p>"
  +:+ nl +:+ "    ".

(** [s.includes(search)] and [s.endsWith(search)].  Strings are sequences of
    bytes here; for an ASCII [search] the answer is that of JavaScript. *)
Fixpoint String_includes (s search : string) : bool :=
  String.prefix search s ||
  match s with
  | EmptyString => false
  | String _ rest => String_includes rest search
  end.

Fixpoint String_endsWith (s search : string) : bool :=
  String.eqb s search ||
  match s with
  | EmptyString => false
  | String _ rest => String_endsWith rest search
  end.

(** ** The stack that deploys the email function *)

Module Stack.

(** [environment: "dev" | "prod"] *)
Inductive environment : Type := dev | prod.

Definition environment_name (e : environment) : string :=
  match e with
  | dev => "dev"
  | prod => "prod"
  end.

Definition domainName : string := "christopher-fiallos.com".

Definition prefix (e : environment) : string :=
  if String.eqb (environment_name e) "dev" then "Dev" else "Prod".

Definition environmentPrefix (e : environment) : string :=
  if String.eqb (environment_name e) "dev" then "dev." else "".

Definition fullDomain (e : environment) : string :=
  environmentPrefix e +:+ domainName.

Definition bucketName (e : environment) : string :=
  fullDomain e +:+ "-website".

Definition pipelineName (e : environment) : string :=
  prefix e +:+ "PortfolioPipeline".

Definition branch (e : environment) : string :=
  if String.eqb (environment_name e) "dev" then "dev" else "master".

(** The origins allowed by the CORS settings of the function URL. *)
Definition allowedOrigins (e : environment) : list string :=
  ["https://" +:+ fullDomain e].

(** The [environment] of the email function: [synth_env] is [process.env]
    at synthesis time, and [process.env.RESEND_API_KEY || ""] is the empty
    string when the variable is unset or empty. *)
Definition emailFunction_environment (synth_env : gmap string string) : gmap string string :=
  {[ "RESEND_API_KEY" :=
       match synth_env !! "RESEND_API_KEY" with
       | Some k => if truthy (VStr k) then k else ""
       | None => ""
       end ]}.

(** The viewer-request event of a CloudFront function: the request, whose
    [uri] the function reads and writes, and what else they hold. *)
Record viewer_request : Type := {
  uri : string;
  request_rest : list (string * value);
}.

Record viewer_event : Type := {
  request : viewer_request;
  event_rest : list (string * value);
}.

Definition set_uri (r : viewer_request) (u : string) : viewer_request :=
  {| uri := u; request_rest := request_rest r |}.

(** The inline [handler] of [UrlRewriteFunction]. *)
Definition handler (event : viewer_event) : viewer_request :=
  let request := request event in
  let uri := uri request in
  if String_endsWith uri "/" || negb (String_includes uri ".") then
    set_uri request "/index.html"
  else
    request.

End Stack.

(** ** The stack of [lib/portfolio-2.0-cdk-stack.ts] *)

Module StackLib.

(** The inline [handler] of [UrlRewriteFunction]: [request.uri += ..]
    appends to the [uri] just read. *)
Definition handler (event : Stack.viewer_event) : Stack.viewer_request :=
  let request := Stack.request event in
  let uri := Stack.uri request in
  if String_endsWith uri "/" then
    Stack.set_uri request (Stack.uri request +:+ "index.html")
  else if negb (String_includes uri ".") then
    Stack.set_uri request (Stack.uri request +:+ ".html")
  else
    request.

End StackLib.

(** ** More of the concrete world *)

Module SampleFailures.

(** The secret store is unreachable. *)
Definition store_down : world :=
  {| process_env := Sample.secret_name_set;
     sm_getSecretValue id t :=
       Throw {| err_name := "AccessDeniedException"; err_message := "not authorized" |};
     new_Resend := new_Resend Sample.working;
     emails_send := emails_send Sample.working |}.

(** The email API rejects every dispatch. *)
Definition api_down : world :=
  {| process_env := Sample.secret_name_set;
     sm_getSecretValue := sm_getSecretValue Sample.working;
     new_Resend := new_Resend Sample.working;
     emails_send client payload t :=
       Throw {| err_name := "Error"; err_message := "rate limit exceeded" |} |}.

(** The secret is binary: the response has no [SecretString]. *)
Definition binary_secret : world :=
  {| process_env := Sample.secret_name_set;
     sm_getSecretValue id t := Ok (VObj [("Name", VStr "resend-api-key")]);
     new_Resend := new_Resend Sample.working;
     emails_send := emails_send Sample.working |}.

(** The secret name is set to the empty string. *)
Definition empty_name : world :=
  {| process_env := {[ "RESEND_API_KEY_SECRET_NAME" := "" ]};
     sm_getSecretValue := sm_getSecretValue Sample.working;
     new_Resend := new_Resend Sample.working;
     emails_send := emails_send Sample.working |}.

(** The function as the stack deploys it, synthesised with a key in the
    environment; the runtime adds its own variables. *)
Definition runtime_variables : gmap string string :=
  {[ "AWS_REGION" := "us-east-1" ]}.

Definition deployed : world :=
  {| process_env :=
       Stack.emailFunction_environment {[ "RESEND_API_KEY" := "re_123" ]} ∪ runtime_variables;
     sm_getSecretValue := sm_getSecretValue Sample.working;
     new_Resend := new_Resend Sample.working;
     emails_send := emails_send Sample.working |}.

Definition blog_post : Stack.viewer_event :=
  {| Stack.request := {| Stack.uri := "/blog/first-post";
                         Stack.request_rest := [("method", VStr "GET")] |};
     Stack.event_rest := [("version", VStr "1.0")] |}.

End SampleFailures.

(** * Properties *)

(** ** Traces *)

Lemma email_api_calls_app (t t' : trace) :
  email_api_calls (t ++ t') = email_api_calls t ++ email_api_calls t'.
Proof.
  induction t as [|ev t IH]; [done|].
  destruct ev; simpl; by rewrite ?IH.
Qed.

Lemma secret_store_calls_app (t t' : trace) :
  secret_store_calls (t ++ t') = secret_store_calls t ++ secret_store_calls t'.
Proof.
  induction t as [|ev t IH]; [done|].
  destruct ev; simpl; by rewrite ?IH.
Qed.

Lemma body_parses_app (t t' : trace) :
  body_parses (t ++ t') = (body_parses t + body_parses t')%nat.
Proof.
  induction t as [|ev t IH]; [done|].
  simpl. repeat case_match; simpl; rewrite ?IH; done.
Qed.

Section Properties.
Context (E : engine) (W : world).

Lemma http_event_shape event :
  is_http_event event = true →
  ∃ origin method,
    request_origin E event = Ok origin ∧ request_method E event = Ok (VStr method).
Proof.
  unfold is_http_event. intros H.
  destruct event as [| | | | | |props]; try discriminate.
  destruct (own_property "headers" props) as [[| | | | | |hs]|] eqn:Hh; try discriminate.
  destruct (own_property "requestContext" props) as [[| | | | | |rc]|] eqn:Hrc;
    try discriminate.
  destruct (own_property "http" rc) as [[| | | | | |http]|] eqn:Hhttp; try discriminate.
  destruct (own_property "method" http) as [[| | | |m| |]|] eqn:Hm; try discriminate.
  unfold request_origin, request_method, get_prop, mbind, result_bind.
  rewrite Hh, Hrc. simpl. rewrite Hhttp. simpl. rewrite Hm. simpl.
  destruct (truthy _); do 2 eexists; split; reflexivity.
Qed.

Lemma handler_preflight event origin method t :
  request_origin E event = Ok origin →
  request_method E event = Ok method →
  strict_eq_string method "OPTIONS" = true →
  handler E W event t =
    (Ok (createResponse E 200 "Preflight request successful" None origin),
     t ++ [received E event]).
Proof.
  intros Ho Hm Hopt. unfold handler, mbind, M_bind, console_log, emit, lift.
  rewrite Ho, Hm, Hopt. reflexivity.
Qed.

Lemma handler_not_preflight event origin method t :
  request_origin E event = Ok origin →
  request_method E event = Ok method →
  strict_eq_string method "OPTIONS" = false →
  handler E W event t =
    match handler_try E W event origin (t ++ [received E event]) with
    | (Ok r, t') => (Ok r, t')
    | (Throw e, t') =>
        (Ok (createResponse E 500 "Internal server error" (Some e) origin),
         t' ++ [ConsoleError [LogV (VStr "Lambda function error:"); LogE e]])
    end.
Proof.
  intros Ho Hm Hopt. unfold handler, mbind, M_bind, console_log, emit, lift.
  rewrite Ho, Hm, Hopt. unfold try_catch. fold (received E event).
  destruct (handler_try _ _ _ _ _) as [[r|e] t']; reflexivity.
Qed.

Lemma handler_try_run event origin t :
  handler_try E W event origin t =
    match getResendApiKey E W t with
    | (Throw e, t1) => (Throw e, t1)
    | (Ok key, t1) =>
        match new_Resend W key with
        | Throw e => (Throw e, t1)
        | Ok resend =>
            match parseEventBody E event t1 with
            | (Throw e, t2) => (Throw e, t2)
            | (Ok b, t2) =>
                match validateBody E b t2 with
                | (Throw e, t3) => (Throw e, t3)
                | (Ok validatedBody, t3) =>
                    match sendEmail E W resend validatedBody t3 with
                    | (Throw e, t4) => (Throw e, t4)
                    | (Ok result, t4) =>
                        (Ok (createResponse E 200 "Email sent successfully" None origin),
                         t4 ++ [ConsoleLog [LogV (VStr "Email sent successfully:");
                                            LogV (JSON_stringify E result)]])
                    end
                end
            end
        end
    end.
Proof.
  unfold handler_try, mbind, M_bind, lift.
  destruct (getResendApiKey E W t) as [[key|e] t1]; [|done].
  destruct (new_Resend W key) as [resend|e]; [|done].
  destruct (parseEventBody E event t1) as [[b|e] t2]; [|done].
  destruct (validateBody E b t2) as [[vb|e] t3]; [|done].
  destruct (sendEmail E W resend vb t3) as [[result|e] t4]; done.
Qed.

Lemma handler_try_ok event origin t r t' :
  handler_try E W event origin t = (Ok r, t') →
  r = createResponse E 200 "Email sent successfully" None origin.
Proof.
  rewrite handler_try_run. intros H.
  repeat case_match; by simplify_eq.
Qed.

(** The credential step talks to the secret store only. *)
Lemma getResendApiKey_quiet t r t' :
  getResendApiKey E W t = (r, t') →
  email_api_calls t' = email_api_calls t ∧ body_parses t' = body_parses t.
Proof.
  unfold getResendApiKey, try_catch, await_getSecretValue, mbind, M_bind, lift, throw,
    console_error, emit.
  intros H. repeat case_match; simplify_eq;
    rewrite ?email_api_calls_app, ?body_parses_app; simpl;
    rewrite ?app_nil_r, ?Nat.add_0_r; done.
Qed.

Lemma getResendApiKey_unset t :
  process_env W !! "RESEND_API_KEY_SECRET_NAME" = None →
  getResendApiKey E W t =
    (Throw (Error secret_name_unset_message),
     t ++ [ConsoleError [LogV (VStr secret_name_unset_message)]]).
Proof.
  intros H. unfold getResendApiKey, env_var. rewrite H. reflexivity.
Qed.

(** The outcome of parsing does not depend on the history. *)
Lemma parseEventBody_run event :
  ∃ r, ∀ t, parseEventBody E event t = (r, t ++ [parsing E event]).
Proof.
  unfold parseEventBody, parsing, mbind, M_bind, mret, M_ret, lift, throw, console_log, emit.
  destruct (get_prop E event "body") as [b|e]; [|by eexists].
  destruct (String.eqb (typeof b) "string").
  - destruct (ToString E b) as [text|e]; [|by eexists].
    destruct (JSON_parse E text); by eexists.
  - destruct (String.eqb (typeof b) "object"); by eexists.
Qed.

Lemma destructure_fields_object props :
  destructure_fields E (VObj props) =
    Ok (field "name" (VObj props), field "email" (VObj props), field "message" (VObj props)).
Proof. reflexivity. Qed.

Lemma validateBody_truthy b t :
  field_truthy "name" b = true →
  field_truthy "email" b = true →
  field_truthy "message" b = true →
  validateBody E b t = (Ok b, t ++ [validating E b]).
Proof.
  unfold field_truthy. intros Hn He Hm.
  destruct b as [| | | | | |props]; try discriminate.
  unfold validateBody, mbind, M_bind, lift, console_log, emit.
  rewrite destructure_fields_object. unfold field.
  destruct (own_property "name" props) as [n|]; [|discriminate].
  destruct (own_property "email" props) as [e|]; [|discriminate].
  destruct (own_property "message" props) as [m|]; [|discriminate].
  simpl. rewrite Hn, He, Hm. reflexivity.
Qed.

Lemma validateBody_missing b t :
  missing_required_field b = true →
  ∃ e, validateBody E b t = (Throw e, t ++ [validating E b]).
Proof.
  unfold missing_required_field, field_truthy. intros H.
  unfold validateBody, mbind, M_bind, lift, throw, console_log, emit.
  destruct b as [| | | | | |props]; try (by eexists).
  rewrite destructure_fields_object. unfold field.
  destruct (own_property "name" props) as [n|]; simpl; [|by eexists].
  destruct (truthy n); simpl; [|by eexists].
  destruct (own_property "email" props) as [e|]; simpl; [|by eexists].
  destruct (truthy e); simpl; [|by eexists].
  destruct (own_property "message" props) as [m|]; simpl; [|by eexists].
  destruct (truthy m); simpl; [discriminate|by eexists].
Qed.

Lemma sendEmail_object resend props t :
  let b := VObj props in
  let t1 := t ++ [sending E (field "name" b) (field "email" b) (field "message" b)] in
  sendEmail E W resend b t =
    match contact_html E (field "name" b) (field "email" b) (field "message" b) with
    | Ok html =>
        let t2 := t1 ++ [EmailsSend resend (contact_email html)] in
        (emails_send W resend (contact_email html) t2, t2)
    | Throw e => (Throw e, t1)
    end.
Proof.
  intros b t1. unfold sendEmail, mbind, M_bind, lift, console_log, emit, await_emails_send.
  subst b. rewrite destructure_fields_object. cbv zeta. cbv beta iota.
  destruct (contact_html _ _ _ _); done.
Qed.

Lemma not_preflight_method event method :
  is_preflight E event = false →
  request_method E event = Ok method →
  strict_eq_string method "OPTIONS" = false.
Proof. unfold is_preflight. intros H Hm. by rewrite Hm in H. Qed.

Lemma preflight_method event method :
  is_preflight E event = true →
  request_method E event = Ok method →
  strict_eq_string method "OPTIONS" = true.
Proof. unfold is_preflight. intros H Hm. by rewrite Hm in H. Qed.

(** C1. For every inbound HTTP request event the handler returns exactly
    one response and does not throw: the promise it returns is fulfilled,
    with status 200 or 500, and every failure that arises while the request
    is processed is caught and turned into the 500 response built from
    it. *)
Theorem handler_always_responds event t :
  is_http_event event = true →
  ∃ r t',
    handler E W event t = (Ok r, t') ∧
    (statusCode r = 200 ∨ statusCode r = 500) ∧
    ∀ e, processing_fails E W event t e →
         statusCode r = 500 ∧
         ∃ origin, r = createResponse E 500 "Internal server error" (Some e) origin.
Proof.
  intros Hev. destruct (http_event_shape event Hev) as (origin & method & Ho & Hm).
  destruct (is_preflight E event) eqn:Hpre.
  - rewrite (handler_preflight event origin (VStr method) t Ho Hm)
      by (eapply preflight_method; eauto).
    do 2 eexists. split; [reflexivity|]. split; [by left|].
    intros e [Hno _]. rewrite Hpre in Hno. discriminate.
  - rewrite (handler_not_preflight event origin (VStr method) t Ho Hm)
      by (eapply not_preflight_method; eauto).
    destruct (handler_try E W event origin (t ++ [received E event])) as [[r|e] t1] eqn:Htry.
    + do 2 eexists. split; [reflexivity|].
      rewrite (handler_try_ok _ _ _ _ _ Htry). split; [by left|].
      intros e (_ & origin' & t1' & Ho' & Htry'). congruence.
    + do 2 eexists. split; [reflexivity|]. split; [by right|].
      intros e' (_ & origin' & t1' & Ho' & Htry').
      assert (origin' = origin) as -> by congruence.
      assert (e' = e) as -> by congruence.
      split; [done|by eexists].
Qed.

(** C2. For every request whose method is OPTIONS, whatever its body, the
    handler answers 200 with the message "Preflight request successful";
    its only effect is the console line that reports the event: the secret
    store and the email API are not called and the body is not parsed. *)
Theorem preflight_short_circuit event t :
  is_http_event event = true →
  is_preflight E event = true →
  ∃ r t',
    handler E W event t = (Ok r, t') ∧
    statusCode r = 200 ∧
    body r = JSON_stringify E (VObj [("message", VStr "Preflight request successful")]) ∧
    t' = t ++ [received E event] ∧
    secret_store_calls t' = secret_store_calls t ∧
    email_api_calls t' = email_api_calls t ∧
    body_parses t' = body_parses t.
Proof.
  intros Hev Hpre. destruct (http_event_shape event Hev) as (origin & method & Ho & Hm).
  rewrite (handler_preflight event origin (VStr method) t Ho Hm)
    by (eapply preflight_method; eauto).
  do 2 eexists. split; [reflexivity|].
  rewrite secret_store_calls_app, email_api_calls_app, body_parses_app. simpl.
  rewrite !app_nil_r, Nat.add_0_r. done.
Qed.

(** C3. If RESEND_API_KEY_SECRET_NAME is unset, every non-OPTIONS request
    is answered with 500 (the error names the missing variable), and on
    that invocation the body is not parsed and neither the email API nor
    the secret store is called. *)
Theorem unset_secret_name_fails_early event t :
  is_http_event event = true →
  is_preflight E event = false →
  process_env W !! "RESEND_API_KEY_SECRET_NAME" = None →
  ∃ r t',
    handler E W event t = (Ok r, t') ∧
    statusCode r = 500 ∧
    body r = JSON_stringify E
               (VObj [("message", VStr "Internal server error");
                      ("error", VStr ("Error: " +:+ secret_name_unset_message))]) ∧
    body_parses t' = body_parses t ∧
    email_api_calls t' = email_api_calls t ∧
    secret_store_calls t' = secret_store_calls t.
Proof.
  intros Hev Hpre Henv. destruct (http_event_shape event Hev) as (origin & method & Ho & Hm).
  rewrite (handler_not_preflight event origin (VStr method) t Ho Hm)
    by (eapply not_preflight_method; eauto).
  rewrite handler_try_run, getResendApiKey_unset by done.
  do 2 eexists. split; [reflexivity|].
  rewrite !secret_store_calls_app, !email_api_calls_app, !body_parses_app. simpl.
  rewrite !app_nil_r, !Nat.add_0_r. done.
Qed.

Lemma field_truthy_object k b :
  field_truthy k b = true → ∃ props, b = VObj props.
Proof. destruct b; try discriminate. eauto. Qed.

Lemma field_nonempty_string_truthy k b :
  field_nonempty_string k b = true → field_truthy k b = true.
Proof.
  unfold field_nonempty_string, field_truthy.
  destruct b as [| | | | | |props]; try done.
  destruct (own_property k props) as [[]|]; done.
Qed.

Lemma field_nonempty_string_inv k b :
  field_nonempty_string k b = true → ∃ s, field k b = VStr s ∧ s ≠ "".
Proof.
  unfold field_nonempty_string, field.
  destruct b as [| | | | | |props]; try done.
  destruct (own_property k props) as [[| | | |s| |]|]; try done.
  simpl. intros H. exists s. split; [done|]. intros ->. done.
Qed.

Lemma valid_contact_inv b :
  valid_contact b = true →
  field_nonempty_string "name" b = true ∧
  field_nonempty_string "email" b = true ∧
  field_nonempty_string "message" b = true.
Proof. unfold valid_contact. intros H. by repeat (apply andb_prop in H as [H ?]). Qed.

(** The run of a request that passes validation, once the key is fetched
    and the client is built. *)
Lemma handler_dispatch event t b key t1 resend :
  is_http_event event = true →
  is_preflight E event = false →
  parses_to E event b →
  field_truthy "name" b = true →
  field_truthy "email" b = true →
  field_truthy "message" b = true →
  getResendApiKey E W (t ++ [received E event]) = (Ok key, t1) →
  new_Resend W key = Ok resend →
  ∃ origin,
    request_origin E event = Ok origin ∧
    handler E W event t =
      let t3 := t1 ++ [parsing E event; validating E b;
                       sending E (field "name" b) (field "email" b) (field "message" b)] in
      match contact_html E (field "name" b) (field "email" b) (field "message" b) with
      | Throw e =>
          (Ok (createResponse E 500 "Internal server error" (Some e) origin),
           t3 ++ [failure_logged e])
      | Ok html =>
          let t4 := t3 ++ [EmailsSend resend (contact_email html)] in
          match emails_send W resend (contact_email html) t4 with
          | Ok result =>
              (Ok (createResponse E 200 "Email sent successfully" None origin),
               t4 ++ [success_logged E result])
          | Throw e =>
              (Ok (createResponse E 500 "Internal server error" (Some e) origin),
               t4 ++ [failure_logged e])
          end
      end.
Proof.
  intros Hev Hpre Hparse Hn He Hm Hkey Hres.
  destruct (http_event_shape event Hev) as (origin & method & Ho & Hmeth).
  exists origin. split; [done|].
  rewrite (handler_not_preflight event origin (VStr method) t Ho Hmeth)
    by (eapply not_preflight_method; eauto).
  rewrite handler_try_run, Hkey, Hres, Hparse, validateBody_truthy by done.
  destruct (field_truthy_object _ _ Hn) as [props ->].
  rewrite sendEmail_object. cbv zeta. rewrite <- !app_assoc. simpl.
  destruct (contact_html _ _ _ _) as [html|e]; [|done].
  destruct (emails_send _ _ _ _) as [result|e]; done.
Qed.

(** Strings are interpolated as they are. *)
Lemma contact_html_strings n e m :
  ∃ html, contact_html E (VStr n) (VStr e) (VStr m) = Ok html.
Proof. eexists. reflexivity. Qed.

(** C4. For every non-OPTIONS request whose body parses to an object with
    non-empty [name], [email] and [message] strings, when the key is
    fetched from the secret store, the client is built from it and the
    email API accepts the dispatch, the handler answers 200 with the
    message "Email sent successfully". *)
Theorem valid_contact_is_sent event t b key t1 resend :
  is_http_event event = true →
  is_preflight E event = false →
  parses_to E event b →
  valid_contact b = true →
  getResendApiKey E W (t ++ [received E event]) = (Ok key, t1) →
  new_Resend W key = Ok resend →
  (∀ payload t2, ∃ result, emails_send W resend payload t2 = Ok result) →
  ∃ r t',
    handler E W event t = (Ok r, t') ∧
    statusCode r = 200 ∧
    body r = JSON_stringify E (VObj [("message", VStr "Email sent successfully")]).
Proof.
  intros Hev Hpre Hparse Hvalid Hkey Hres Hsend.
  destruct (valid_contact_inv b Hvalid) as (Hn & He & Hm).
  destruct (handler_dispatch event t b key t1 resend) as (origin & _ & ->);
    auto using field_nonempty_string_truthy.
  destruct (field_nonempty_string_inv _ _ Hn) as (n & -> & _).
  destruct (field_nonempty_string_inv _ _ He) as (e & -> & _).
  destruct (field_nonempty_string_inv _ _ Hm) as (m & -> & _).
  destruct (contact_html_strings n e m) as [html ->]. cbv zeta.
  match goal with |- context [emails_send W resend ?p ?t2] =>
    destruct (Hsend p t2) as [result ->] end.
  by do 2 eexists.
Qed.

(** C5. For every non-OPTIONS request whose parsed body lacks one of
    [name], [email], [message], or holds a falsy value for it, the handler
    answers 500, the serialised body of the response has an [error] field,
    and the email API is not called. *)
Theorem missing_field_is_rejected event t b :
  is_http_event event = true →
  is_preflight E event = false →
  parses_to E event b →
  missing_required_field b = true →
  ∃ r t' e,
    handler E W event t = (Ok r, t') ∧
    statusCode r = 500 ∧
    body r = JSON_stringify E
               (VObj [("message", VStr "Internal server error");
                      ("error", VStr (Error_toString e))]) ∧
    email_api_calls t' = email_api_calls t.
Proof.
  intros Hev Hpre Hparse Hmiss.
  destruct (http_event_shape event Hev) as (origin & method & Ho & Hmeth).
  rewrite (handler_not_preflight event origin (VStr method) t Ho Hmeth)
    by (eapply not_preflight_method; eauto).
  rewrite handler_try_run.
  destruct (getResendApiKey E W (t ++ [received E event])) as [[key|e] t1] eqn:Hkey;
    apply getResendApiKey_quiet in Hkey as [Hcalls _];
    rewrite email_api_calls_app in Hcalls; simpl in Hcalls; rewrite app_nil_r in Hcalls.
  - destruct (new_Resend W key) as [resend|e].
    + rewrite Hparse.
      destruct (validateBody_missing b (t1 ++ [parsing E event]) Hmiss) as [e ->].
      exists (createResponse E 500 "Internal server error" (Some e) origin).
      do 2 eexists. split; [reflexivity|]. repeat split.
      rewrite !email_api_calls_app. simpl. by rewrite !app_nil_r.
    + exists (createResponse E 500 "Internal server error" (Some e) origin).
      do 2 eexists. split; [reflexivity|]. repeat split.
      rewrite !email_api_calls_app. simpl. by rewrite !app_nil_r.
  - exists (createResponse E 500 "Internal server error" (Some e) origin).
    do 2 eexists. split; [reflexivity|]. repeat split.
    rewrite !email_api_calls_app. simpl. by rewrite !app_nil_r.
Qed.

(** C7. With working collaborators, one invocation on a valid non-OPTIONS
    request calls the email API exactly once, and a second invocation on
    the same request calls it once more with the same message: nothing is
    deduplicated. *)
Theorem one_dispatch_per_invocation event t b :
  is_http_event event = true →
  is_preflight E event = false →
  parses_to E event b →
  valid_contact b = true →
  working_collaborators E W →
  ∃ r1 t1 r2 t2 client1 client2 payload,
    handler E W event t = (Ok r1, t1) ∧
    statusCode r1 = 200 ∧
    email_api_calls t1 = email_api_calls t ++ [(client1, payload)] ∧
    handler E W event t1 = (Ok r2, t2) ∧
    statusCode r2 = 200 ∧
    email_api_calls t2 = email_api_calls t1 ++ [(client2, payload)].
Proof.
  intros Hev Hpre Hparse Hvalid Hwork.
  destruct (valid_contact_inv b Hvalid) as (Hn & He & Hm).
  assert (∃ html, ∀ t0, ∃ r t' client,
             handler E W event t0 = (Ok r, t') ∧ statusCode r = 200 ∧
             email_api_calls t' = email_api_calls t0 ++ [(client, contact_email html)])
    as [html Hrun].
  { destruct (field_nonempty_string_inv _ _ Hn) as (n & Hfn & _).
    destruct (field_nonempty_string_inv _ _ He) as (e & Hfe & _).
    destruct (field_nonempty_string_inv _ _ Hm) as (m & Hfm & _).
    destruct (contact_html_strings n e m) as [html Hhtml].
    exists html. intros t0.
    destruct (Hwork (t0 ++ [received E event])) as (key & t1 & resend & Hkey & Hres & Hsend).
    destruct (handler_dispatch event t0 b key t1 resend) as (origin & _ & ->);
      auto using field_nonempty_string_truthy.
    rewrite Hfn, Hfe, Hfm, Hhtml. cbv zeta.
    match goal with |- context [emails_send W resend ?p ?t2] =>
      destruct (Hsend p t2) as [result ->] end.
    apply getResendApiKey_quiet in Hkey as [Hcalls _].
    rewrite email_api_calls_app in Hcalls. simpl in Hcalls. rewrite app_nil_r in Hcalls.
    do 3 eexists. split; [reflexivity|]. split; [done|].
    rewrite !email_api_calls_app, Hcalls. simpl. by rewrite !app_nil_r. }
  destruct (Hrun t) as (r1 & t1 & c1 & H1 & Hs1 & Hc1).
  destruct (Hrun t1) as (r2 & t2 & c2 & H2 & Hs2 & Hc2).
  by exists r1, t1, r2, t2, c1, c2, (contact_email html).
Qed.

Lemma handler_response event t r t' :
  handler E W event t = (Ok r, t') →
  ∃ status message error origin, r = createResponse E status message error origin.
Proof.
  unfold handler, try_catch, mbind, M_bind, mret, M_ret, lift, console_log, console_error, emit.
  destruct (request_origin E event) as [origin|]; [|done].
  destruct (request_method E event) as [method|]; [|done].
  destruct (strict_eq_string method "OPTIONS").
  - intros ?. simplify_eq. by do 4 eexists.
  - destruct (handler_try _ _ _ _ _) as [[r0|e] t0] eqn:Htry; intros ?; simplify_eq.
    + rewrite (handler_try_ok _ _ _ _ _ Htry). by do 4 eexists.
    + by do 4 eexists.
Qed.

(** C8. Every response the handler returns carries exactly the two fixed
    headers, whatever the request and its [origin]/[Origin] header; no
    header is named Access-Control-Allow-Origin. *)
Theorem response_headers_are_fixed event t r t' :
  handler E W event t = (Ok r, t') →
  headers r = fixed_headers ∧
  "Access-Control-Allow-Origin" ∉ (headers r).*1.
Proof.
  intros H. destruct (handler_response _ _ _ _ H) as (status & message & err & origin & ->).
  split; [reflexivity|]. simpl.
  rewrite !not_elem_of_cons. repeat split; [done..|apply not_elem_of_nil].
Qed.

(** C9. Validation accepts truthy values of any type, not only non-empty
    strings: when [name], [email] and [message] of the parsed body are
    truthy, [validateBody] returns the body and the handler goes on to
    [sendEmail]; the email API is then called once, with the fields
    converted to text, whenever that conversion succeeds. *)
Theorem truthy_fields_pass_validation event t b key t1 resend :
  is_http_event event = true →
  is_preflight E event = false →
  parses_to E event b →
  field_truthy "name" b = true →
  field_truthy "email" b = true →
  field_truthy "message" b = true →
  getResendApiKey E W (t ++ [received E event]) = (Ok key, t1) →
  new_Resend W key = Ok resend →
  (∀ t0, validateBody E b t0 = (Ok b, t0 ++ [validating E b])) ∧
  ∃ r t',
    handler E W event t = (Ok r, t') ∧
    sending E (field "name" b) (field "email" b) (field "message" b) ∈ t' ∧
    ∀ html,
      contact_html E (field "name" b) (field "email" b) (field "message" b) = Ok html →
      email_api_calls t' = email_api_calls t ++ [(resend, contact_email html)].
Proof.
  intros Hev Hpre Hparse Hn He Hm Hkey Hres.
  split; [intros t0; by apply validateBody_truthy|].
  destruct (handler_dispatch event t b key t1 resend) as (origin & _ & ->); auto.
  apply getResendApiKey_quiet in Hkey as [Hcalls _].
  rewrite email_api_calls_app in Hcalls. simpl in Hcalls. rewrite app_nil_r in Hcalls.
  cbv zeta.
  destruct (contact_html _ _ _ _) as [html|e].
  - destruct (emails_send _ _ _ _) as [result|e];
      (do 2 eexists; split; [reflexivity|]; split; [set_solver|]);
      intros html' Hhtml; injection Hhtml as <-;
      rewrite !email_api_calls_app, Hcalls; simpl; by rewrite !app_nil_r.
  - do 2 eexists. split; [reflexivity|]. split; [set_solver|]. done.
Qed.

Lemma get_prop_body event :
  is_http_event event = true → get_prop E event "body" = Ok (request_body event).
Proof. destruct event; done. Qed.

(** What [parseEventBody] does, by the shape of the body. *)
Lemma parseEventBody_cases event t :
  is_http_event event = true →
  parseEventBody E event t =
    (match request_body event with
     | VStr text => JSON_parse E text
     | VObj _ | VArr _ | VNull => Ok (request_body event)
     | VUndefined | VBool _ | VNum _ => Throw (Error "Invalid event body")
     end,
     t ++ [parsing E event]).
Proof.
  intros Hev.
  unfold parseEventBody, mbind, M_bind, mret, M_ret, lift, throw, console_log, emit.
  rewrite get_prop_body by done. fold (parsing E event).
  by destruct (request_body event).
Qed.

Lemma validateBody_null t :
  validateBody E VNull t = (Throw (TypeError E (DestructureOf VNull)), t ++ [validating E VNull]).
Proof. reflexivity. Qed.

(** C10. For every non-OPTIONS request whose body is [null],
    [parseEventBody] returns [null] from its object branch instead of
    throwing "Invalid event body"; the invocation still ends in a 500
    response, and once the key is fetched and the client built the error
    reported is the [TypeError] of the destructuring in [validateBody]. *)
Theorem null_body_passes_parsing event t :
  is_http_event event = true →
  is_preflight E event = false →
  request_body event = VNull →
  parses_to E event VNull ∧
  (∀ t0, validateBody E VNull t0 =
           (Throw (TypeError E (DestructureOf VNull)), t0 ++ [validating E VNull])) ∧
  ∃ r t' e,
    handler E W event t = (Ok r, t') ∧
    statusCode r = 500 ∧
    body r = JSON_stringify E
               (VObj [("message", VStr "Internal server error");
                      ("error", VStr (Error_toString e))]) ∧
    ∀ key t1 resend,
      getResendApiKey E W (t ++ [received E event]) = (Ok key, t1) →
      new_Resend W key = Ok resend →
      e = TypeError E (DestructureOf VNull) ∧ e ≠ Error "Invalid event body".
Proof.
  intros Hev Hpre Hnull.
  assert (parses_to E event VNull) as Hparse.
  { intros t0. rewrite parseEventBody_cases by done. by rewrite Hnull. }
  split; [done|]. split; [apply validateBody_null|].
  destruct (http_event_shape event Hev) as (origin & method & Ho & Hmeth).
  rewrite (handler_not_preflight event origin (VStr method) t Ho Hmeth)
    by (eapply not_preflight_method; eauto).
  rewrite handler_try_run.
  destruct (getResendApiKey E W (t ++ [received E event])) as [[key|e] t1] eqn:Hkey.
  - destruct (new_Resend W key) as [resend|e] eqn:Hres.
    + rewrite Hparse, validateBody_null.
      do 3 eexists. split; [reflexivity|]. do 2 (split; [reflexivity|]).
      intros _ _ _ _ _. split; [reflexivity|discriminate].
    + do 3 eexists. split; [reflexivity|]. do 2 (split; [reflexivity|]).
      intros key' t1' resend' Hkey' Hres'. injection Hkey' as <- <-. congruence.
  - do 3 eexists. split; [reflexivity|]. do 2 (split; [reflexivity|]).
    intros key' t1' resend' Hkey' Hres'. discriminate.
Qed.

End Properties.

(** C6. At a request whose body is [null], which is neither a string nor a
    structured object, [parseEventBody] does not throw "Invalid event
    body": it returns [null], and the 500 response of the handler reports
    the [TypeError] raised later by [validateBody]. *)
Theorem null_body_is_not_a_parse_error :
  (∀ E t, parseEventBody E Sample.post_null t = (Ok VNull, t ++ [parsing E Sample.post_null])) ∧
  ∃ origin t',
    handler Sample.builtins Sample.working Sample.post_null [] =
      (Ok (createResponse Sample.builtins 500 "Internal server error"
             (Some (TypeError Sample.builtins (DestructureOf VNull))) origin), t') ∧
    TypeError Sample.builtins (DestructureOf VNull) ≠ Error "Invalid event body".
Proof.
  split; [reflexivity|].
  exists (VStr "https://christopher-fiallos.com"). eexists.
  split; [vm_compute; reflexivity|discriminate].
Qed.


(** ** The boundary of the statements above, on concrete requests *)

Section ParseFailure.
Context (E : engine) (W : world).

(** X19. A request whose body cannot be parsed is answered with 500 and
    the email API is not called; once the key is fetched and the client
    built, the error reported is the one thrown by [parseEventBody]. *)
Lemma parse_failure_is_reported event t e :
  is_http_event event = true →
  is_preflight E event = false →
  (∀ t0, parseEventBody E event t0 = (Throw e, t0 ++ [parsing E event])) →
  ∃ r t' e',
    handler E W event t = (Ok r, t') ∧
    r.(statusCode) = 500 ∧
    r.(body) = JSON_stringify E
                 (VObj [("message", VStr "Internal server error");
                        ("error", VStr (Error_toString e'))]) ∧
    email_api_calls t' = email_api_calls t ∧
    ∀ key t1 resend,
      getResendApiKey E W (t ++ [received E event]) = (Ok key, t1) →
      new_Resend W key = Ok resend →
      e' = e.
Proof.
  intros Hev Hpre Hparse.
  destruct (http_event_shape E event Hev) as (origin & method & Ho & Hmeth).
  rewrite (handler_not_preflight E W event origin (VStr method) t Ho Hmeth)
    by (eapply not_preflight_method; eauto).
  rewrite handler_try_run.
  destruct (getResendApiKey E W (t ++ [received E event])) as [[key|e0] t1] eqn:Hkey;
    pose proof (getResendApiKey_quiet E W _ _ _ Hkey) as [Hcalls _];
    rewrite email_api_calls_app in Hcalls; simpl in Hcalls; rewrite app_nil_r in Hcalls.
  - destruct (new_Resend W key) as [resend|e0] eqn:Hres.
    + rewrite Hparse. do 3 eexists. split; [reflexivity|]. do 2 (split; [reflexivity|]).
      split; [|done].
      rewrite !email_api_calls_app. simpl. by rewrite !app_nil_r.
    + do 3 eexists. split; [reflexivity|]. do 2 (split; [reflexivity|]).
      split; [rewrite !email_api_calls_app; simpl; by rewrite !app_nil_r|].
      intros key' t1' resend' Hkey' Hres'. injection Hkey' as <- <-. congruence.
  - do 3 eexists. split; [reflexivity|]. do 2 (split; [reflexivity|]).
    split; [rewrite !email_api_calls_app; simpl; by rewrite !app_nil_r|].
    intros key' t1' resend' Hkey' Hres'. discriminate.
Qed.

(** A payload without [headers] is not an HTTP request event: reading its
    origin throws before the guarded block is entered, and the handler
    rejects. *)
Lemma payload_without_headers_rejects t :
  handler E W Sample.empty_payload t =
    (Throw (TypeError E (ReadPropertyOf VUndefined "origin")),
     t ++ [received E Sample.empty_payload]).
Proof. reflexivity. Qed.

End ParseFailure.

(** The number 42 as a body: "Invalid event body". *)
Example body_forty_two :
  (handler Sample.builtins Sample.working Sample.post_forty_two []).1 =
    Ok {| statusCode := 500;
          headers := fixed_headers;
          body := VStr ("{" +:+ Sample.quote +:+ "message" +:+ Sample.quote +:+ ":" +:+ Sample.quote
                        +:+ "Internal server error" +:+ Sample.quote +:+ "," +:+ Sample.quote +:+ "error"
                        +:+ Sample.quote +:+ ":" +:+ Sample.quote +:+ "Error: Invalid event body"
                        +:+ Sample.quote +:+ "}") |}.
Proof. vm_compute. reflexivity. Qed.

(** Malformed JSON text as a body: the error of [JSON.parse]. *)
Example body_malformed :
  (handler Sample.builtins Sample.working Sample.post_malformed []).1 =
    Ok (createResponse Sample.builtins 500 "Internal server error"
          (Some {| err_name := "SyntaxError"; err_message := "Unexpected token" |})
          VUndefined)
  ∧ email_api_calls (handler Sample.builtins Sample.working Sample.post_malformed []).2 = [].
Proof. split; vm_compute; reflexivity. Qed.

(** A truthy [name] that cannot be converted to text passes validation,
    enters [sendEmail] and fails there, before the email API is called. *)
Example body_shadowed :
  field_truthy "name" Sample.shadowed = true ∧
  valid_contact Sample.shadowed = false ∧
  (handler Sample.builtins Sample.working Sample.post_shadowed []).1 =
    Ok (createResponse Sample.builtins 500 "Internal server error"
          (Some (TypeError Sample.builtins ToPrimitive)) VUndefined) ∧
  sending Sample.builtins (field "name" Sample.shadowed) (field "email" Sample.shadowed)
    (field "message" Sample.shadowed) ∈ (handler Sample.builtins Sample.working Sample.post_shadowed []).2 ∧
  email_api_calls (handler Sample.builtins Sample.working Sample.post_shadowed []).2 = [].
Proof.
  split; [reflexivity|]. split; [reflexivity|]. split; [vm_compute; reflexivity|].
  split; [|vm_compute; reflexivity].
  vm_compute. do 4 apply list_elem_of_further. apply list_elem_of_here.
Qed.

(** ** The statements at concrete requests *)

Lemma handler_always_responds_witness :
  is_http_event Sample.post_no_message = true ∧
  ∃ r t',
    handler Sample.builtins Sample.working Sample.post_no_message [] = (Ok r, t') ∧
    (statusCode r = 200 ∨ statusCode r = 500) ∧
    ∀ e, processing_fails Sample.builtins Sample.working Sample.post_no_message [] e →
         statusCode r = 500 ∧
         ∃ origin, r = createResponse Sample.builtins 500 "Internal server error" (Some e) origin.
Proof.
  split; [reflexivity|].
  apply (handler_always_responds Sample.builtins Sample.working Sample.post_no_message []).
  reflexivity.
Defined.

Lemma preflight_short_circuit_witness :
  is_http_event Sample.options_alice = true ∧
  is_preflight Sample.builtins Sample.options_alice = true ∧
  ∃ r t',
    handler Sample.builtins Sample.working Sample.options_alice [] = (Ok r, t') ∧
    statusCode r = 200 ∧
    body r = JSON_stringify Sample.builtins
               (VObj [("message", VStr "Preflight request successful")]) ∧
    t' = [] ++ [received Sample.builtins Sample.options_alice] ∧
    secret_store_calls t' = secret_store_calls [] ∧
    email_api_calls t' = email_api_calls [] ∧
    body_parses t' = body_parses [].
Proof.
  split; [reflexivity|]. split; [reflexivity|].
  apply (preflight_short_circuit Sample.builtins Sample.working Sample.options_alice []);
    reflexivity.
Defined.

Lemma unset_secret_name_fails_early_witness :
  is_http_event Sample.post_alice = true ∧
  is_preflight Sample.builtins Sample.post_alice = false ∧
  process_env Sample.unconfigured !! "RESEND_API_KEY_SECRET_NAME" = None ∧
  ∃ r t',
    handler Sample.builtins Sample.unconfigured Sample.post_alice [] = (Ok r, t') ∧
    statusCode r = 500 ∧
    body r = JSON_stringify Sample.builtins
               (VObj [("message", VStr "Internal server error");
                      ("error", VStr ("Error: " +:+ secret_name_unset_message))]) ∧
    body_parses t' = body_parses [] ∧
    email_api_calls t' = email_api_calls [] ∧
    secret_store_calls t' = secret_store_calls [].
Proof.
  split; [reflexivity|]. split; [reflexivity|]. split; [reflexivity|].
  apply (unset_secret_name_fails_early Sample.builtins Sample.unconfigured Sample.post_alice []);
    reflexivity.
Defined.

Lemma valid_contact_is_sent_witness :
  is_http_event Sample.post_alice = true ∧
  is_preflight Sample.builtins Sample.post_alice = false ∧
  parses_to Sample.builtins Sample.post_alice Sample.alice ∧
  valid_contact Sample.alice = true ∧
  ∃ r t',
    handler Sample.builtins Sample.working Sample.post_alice [] = (Ok r, t') ∧
    statusCode r = 200 ∧
    body r = JSON_stringify Sample.builtins (VObj [("message", VStr "Email sent successfully")]).
Proof.
  split; [reflexivity|]. split; [reflexivity|]. split; [intros t; reflexivity|].
  split; [reflexivity|].
  apply (valid_contact_is_sent Sample.builtins Sample.working Sample.post_alice []
           Sample.alice (VStr "re_123")
           [received Sample.builtins Sample.post_alice; GetSecretValue (VStr "resend-api-key")]
           {| resend_key := VStr "re_123" |}).
  - reflexivity.
  - reflexivity.
  - intros t. reflexivity.
  - reflexivity.
  - reflexivity.
  - reflexivity.
  - intros payload t2. eexists. reflexivity.
Defined.

Lemma missing_field_is_rejected_witness :
  is_http_event Sample.post_no_message = true ∧
  is_preflight Sample.builtins Sample.post_no_message = false ∧
  parses_to Sample.builtins Sample.post_no_message Sample.no_message ∧
  missing_required_field Sample.no_message = true ∧
  ∃ r t' e,
    handler Sample.builtins Sample.working Sample.post_no_message [] = (Ok r, t') ∧
    statusCode r = 500 ∧
    body r = JSON_stringify Sample.builtins
               (VObj [("message", VStr "Internal server error");
                      ("error", VStr (Error_toString e))]) ∧
    email_api_calls t' = email_api_calls [].
Proof.
  split; [reflexivity|]. split; [reflexivity|]. split; [intros t; reflexivity|].
  split; [reflexivity|].
  apply (missing_field_is_rejected Sample.builtins Sample.working Sample.post_no_message []
           Sample.no_message).
  - reflexivity.
  - reflexivity.
  - intros t. reflexivity.
  - reflexivity.
Defined.

Lemma one_dispatch_per_invocation_witness :
  working_collaborators Sample.builtins Sample.working ∧
  valid_contact Sample.alice = true ∧
  ∃ r1 t1 r2 t2 client1 client2 payload,
    handler Sample.builtins Sample.working Sample.post_alice_object [] = (Ok r1, t1) ∧
    statusCode r1 = 200 ∧
    email_api_calls t1 = email_api_calls [] ++ [(client1, payload)] ∧
    handler Sample.builtins Sample.working Sample.post_alice_object t1 = (Ok r2, t2) ∧
    statusCode r2 = 200 ∧
    email_api_calls t2 = email_api_calls t1 ++ [(client2, payload)].
Proof.
  assert (working_collaborators Sample.builtins Sample.working) as Hwork.
  { intros t.
    exists (VStr "re_123"), (t ++ [GetSecretValue (VStr "resend-api-key")]),
      {| resend_key := VStr "re_123" |}.
    split; [reflexivity|]. split; [reflexivity|].
    intros payload t2. eexists. reflexivity. }
  split; [exact Hwork|]. split; [reflexivity|].
  apply (one_dispatch_per_invocation Sample.builtins Sample.working Sample.post_alice_object []
           Sample.alice).
  - reflexivity.
  - reflexivity.
  - intros t. reflexivity.
  - reflexivity.
  - exact Hwork.
Defined.

Lemma response_headers_are_fixed_witness :
  ∃ r t',
    handler Sample.builtins Sample.working Sample.post_alice [] = (Ok r, t') ∧
    headers r = fixed_headers ∧
    "Access-Control-Allow-Origin" ∉ (headers r).*1.
Proof.
  exists (createResponse Sample.builtins 200 "Email sent successfully" None VUndefined).
  eexists. split; [vm_compute; reflexivity|].
  eapply (response_headers_are_fixed Sample.builtins Sample.working Sample.post_alice []).
  vm_compute. reflexivity.
Defined.

Lemma truthy_fields_pass_validation_witness :
  is_http_event Sample.post_numbers = true ∧
  is_preflight Sample.builtins Sample.post_numbers = false ∧
  parses_to Sample.builtins Sample.post_numbers Sample.numbers ∧
  field_truthy "name" Sample.numbers = true ∧
  field_truthy "email" Sample.numbers = true ∧
  field_truthy "message" Sample.numbers = true ∧
  valid_contact Sample.numbers = false ∧
  (∀ t0, validateBody Sample.builtins Sample.numbers t0 =
           (Ok Sample.numbers, t0 ++ [validating Sample.builtins Sample.numbers])) ∧
  ∃ r t',
    handler Sample.builtins Sample.working Sample.post_numbers [] = (Ok r, t') ∧
    sending Sample.builtins (field "name" Sample.numbers) (field "email" Sample.numbers)
      (field "message" Sample.numbers) ∈ t' ∧
    ∀ html,
      contact_html Sample.builtins (field "name" Sample.numbers) (field "email" Sample.numbers)
        (field "message" Sample.numbers) = Ok html →
      email_api_calls t' =
        email_api_calls [] ++ [({| resend_key := VStr "re_123" |}, contact_email html)].
Proof.
  split; [reflexivity|]. split; [reflexivity|]. split; [intros t; reflexivity|].
  do 4 (split; [reflexivity|]).
  apply (truthy_fields_pass_validation Sample.builtins Sample.working Sample.post_numbers []
           Sample.numbers (VStr "re_123")
           [received Sample.builtins Sample.post_numbers; GetSecretValue (VStr "resend-api-key")]
           {| resend_key := VStr "re_123" |}).
  - reflexivity.
  - reflexivity.
  - intros t. reflexivity.
  - reflexivity.
  - reflexivity.
  - reflexivity.
  - reflexivity.
  - reflexivity.
Defined.

Lemma null_body_passes_parsing_witness :
  is_http_event Sample.post_null = true ∧
  is_preflight Sample.builtins Sample.post_null = false ∧
  request_body Sample.post_null = VNull ∧
  parses_to Sample.builtins Sample.post_null VNull ∧
  (∀ t0, validateBody Sample.builtins VNull t0 =
           (Throw (TypeError Sample.builtins (DestructureOf VNull)),
            t0 ++ [validating Sample.builtins VNull])) ∧
  ∃ r t' e,
    handler Sample.builtins Sample.working Sample.post_null [] = (Ok r, t') ∧
    statusCode r = 500 ∧
    body r = JSON_stringify Sample.builtins
               (VObj [("message", VStr "Internal server error");
                      ("error", VStr (Error_toString e))]) ∧
    ∀ key t1 resend,
      getResendApiKey Sample.builtins Sample.working
        ([] ++ [received Sample.builtins Sample.post_null]) = (Ok key, t1) →
      new_Resend Sample.working key = Ok resend →
      e = TypeError Sample.builtins (DestructureOf VNull) ∧ e ≠ Error "Invalid event body".
Proof.
  do 3 (split; [reflexivity|]).
  apply (null_body_passes_parsing Sample.builtins Sample.working Sample.post_null []);
    reflexivity.
Defined.

(** * Further properties *)

Section More.
Context (E : engine) (W : world).

(** The handler, by the reading of the origin and of the method. *)
Lemma handler_cases event t :
  handler E W event t =
    match request_origin E event with
    | Throw e => (Throw e, t ++ [received E event])
    | Ok origin =>
        match request_method E event with
        | Throw e => (Throw e, t ++ [received E event])
        | Ok method =>
            if strict_eq_string method "OPTIONS" then
              (Ok (createResponse E 200 "Preflight request successful" None origin),
               t ++ [received E event])
            else
              match handler_try E W event origin (t ++ [received E event]) with
              | (Ok r, t') => (Ok r, t')
              | (Throw e, t') =>
                  (Ok (createResponse E 500 "Internal server error" (Some e) origin),
                   t' ++ [failure_logged e])
              end
        end
    end.
Proof.
  destruct (request_origin E event) as [origin|e] eqn:Ho.
  - destruct (request_method E event) as [method|e] eqn:Hm.
    + destruct (strict_eq_string method "OPTIONS") eqn:Hopt.
      * by apply handler_preflight with method.
      * by apply handler_not_preflight with method.
    + unfold handler, mbind, M_bind, console_log, emit, lift. by rewrite Ho, Hm.
  - unfold handler, mbind, M_bind, console_log, emit, lift. by rewrite Ho.
Qed.

(** What [validateBody] decides, and with which error. *)
Lemma validateBody_decides b t :
  validateBody E b t =
    (match b with
     | VUndefined | VNull => Throw (TypeError E (DestructureOf b))
     | _ =>
         if missing_required_field b then Throw (Error "Missing required fields")
         else Ok b
     end,
     t ++ [validating E b]).
Proof.
  unfold validateBody, missing_required_field, field_truthy, mbind, M_bind, mret, M_ret,
    lift, throw, console_log, emit.
  destruct b as [| | | | | |props]; try reflexivity.
  rewrite destructure_fields_object. unfold field.
  destruct (own_property "name" props) as [n|]; simpl; [|done].
  destruct (truthy n); simpl; [|done].
  destruct (own_property "email" props) as [e|]; simpl; [|done].
  destruct (truthy e); simpl; [|done].
  destruct (own_property "message" props) as [m|]; simpl; [|done].
  by destruct (truthy m).
Qed.

Lemma secret_name_cases :
  (truthy (env_var W "RESEND_API_KEY_SECRET_NAME") = false) ∨
  ∃ name, process_env W !! "RESEND_API_KEY_SECRET_NAME" = Some name ∧ name ≠ "" ∧
          env_var W "RESEND_API_KEY_SECRET_NAME" = VStr name.
Proof.
  unfold env_var. destruct (process_env W !! _) as [name|]; [|by left].
  destruct (String.eqb_spec name ""); [left; by subst|right; eauto].
Qed.

(** The credential step, whatever its outcome. *)
Lemma getResendApiKey_cases t :
  (truthy (env_var W "RESEND_API_KEY_SECRET_NAME") = false ∧
   getResendApiKey E W t =
     (Throw (Error secret_name_unset_message),
      t ++ [ConsoleError [LogV (VStr secret_name_unset_message)]])) ∨
  ∃ name,
    process_env W !! "RESEND_API_KEY_SECRET_NAME" = Some name ∧ name ≠ "" ∧
    let t1 := t ++ [GetSecretValue (VStr name)] in
    getResendApiKey E W t =
      match
        match sm_getSecretValue W (VStr name) t1 with
        | Ok secret => get_prop E secret "SecretString"
        | Throw e => Throw e
        end
      with
      | Ok key => (Ok key, t1)
      | Throw e =>
          (Throw e, t1 ++ [ConsoleError [LogV (VStr "Error retrieving secret:"); LogE e]])
      end.
Proof.
  destruct secret_name_cases as [Hunset|(name & Henv & Hne & Hvar)].
  - left. split; [done|]. unfold getResendApiKey. by rewrite Hunset.
  - right. exists name. split; [done|]. split; [done|]. cbv zeta.
    unfold getResendApiKey. rewrite Hvar.
    assert (truthy (VStr name) = true) as ->.
    { simpl. by destruct (String.eqb_spec name ""). }
    unfold try_catch, await_getSecretValue, mbind, M_bind, lift, throw, console_error, emit.
    simpl. destruct (sm_getSecretValue W _ _) as [secret|e]; [|done].
    by destruct (get_prop E secret "SecretString").
Qed.

(** [sendEmail], whatever its outcome. *)
Lemma sendEmail_cases resend b t :
  (∃ e, sendEmail E W resend b t = (Throw e, t)) ∨
  (∃ e n m x, sendEmail E W resend b t = (Throw e, t ++ [sending E n m x])) ∨
  (∃ n m x html,
     let t2 := t ++ [sending E n m x; EmailsSend resend (contact_email html)] in
     sendEmail E W resend b t = (emails_send W resend (contact_email html) t2, t2)).
Proof.
  unfold sendEmail, mbind, M_bind, lift, console_log, emit, await_emails_send.
  destruct (destructure_fields E b) as [[[n m] x]|e]; [|left; by eexists].
  right. fold (sending E n m x).
  destruct (contact_html E n m x) as [html|e].
  - right. exists n, m, x, html. cbv zeta. rewrite <- app_assoc. reflexivity.
  - left. by exists e, n, m, x.
Qed.

Ltac count_calls :=
  rewrite ?secret_store_calls_app, ?email_api_calls_app, ?body_parses_app; simpl;
  rewrite ?app_nil_r, ?Nat.add_0_r, ?Nat.add_1_r.




(** X2. A 200 response to a request that is not a preflight is returned
    only after the secret store was called once, the parsed body passed
    validation, and the one call to the email API resolved. *)
Theorem success_means_dispatched event t r t' :
  handler E W event t = (Ok r, t') →
  statusCode r = 200 →
  is_preflight E event = false →
  ∃ name client html result b t2,
    secret_store_calls t' = secret_store_calls t ++ [VStr name] ∧
    email_api_calls t' = email_api_calls t ++ [(client, contact_email html)] ∧
    emails_send W client (contact_email html) t2 = Ok result ∧
    parses_to E event b ∧
    missing_required_field b = false.
Proof.
  rewrite handler_cases. unfold is_preflight.
  destruct (request_origin E event) as [origin|e]; [|done].
  destruct (request_method E event) as [method|e]; [|done].
  intros H Hstatus Hpre. rewrite Hpre in H.
  rewrite handler_try_run in H.
  destruct (getResendApiKey_cases (t ++ [received E event]))
    as [[_ Hkey]|(name & _ & _ & Hkey)]; rewrite Hkey in H; clear Hkey.
  { simplify_eq. }
  cbv zeta in H.
  destruct (match sm_getSecretValue W _ _ with Ok _ => _ | Throw e => _ end) as [key|e].
  2: { simplify_eq. }
  destruct (new_Resend W key) as [resend|e].
  2: { simplify_eq. }
  destruct (parseEventBody_run E event) as [rb Hparse]. rewrite Hparse in H.
  destruct rb as [b|e].
  2: { simplify_eq. }
  rewrite validateBody_decides in H.
  destruct (missing_required_field b) eqn:Hmiss.
  { destruct b; simplify_eq. }
  assert ((match b with
           | VUndefined | VNull => Throw (TypeError E (DestructureOf b))
           | _ => Ok b
           end) = Ok b) as Hok by (destruct b; done).
  rewrite Hok in H. clear Hok.
  destruct (sendEmail_cases resend b
              ((((t ++ [received E event]) ++ [GetSecretValue (VStr name)])
                 ++ [parsing E event]) ++ [validating E b]))
    as [[e Hs]|[(e & n & m & x & Hs)|(n & m & x & html & Hs)]]; rewrite Hs in H; clear Hs.
  - simplify_eq.
  - simplify_eq.
  - cbv zeta in H. destruct (emails_send W _ _ _) as [result|e] eqn:Hsend.
    2: { injection H as <- <-. discriminate Hstatus. }
    injection H as <- <-.
    exists name, resend, html, result, b. eexists.
    split; [by count_calls|]. split; [by count_calls|]. split; [exact Hsend|].
    split; [exact Hparse|done].
Qed.

(** X3. When the secret store rejects the fetch, the handler answers 500
    with that error after logging it twice; the store is called once (no
    retry), the body is not parsed and the email API is not called. *)
Theorem secret_fetch_failure_is_reported event t name e :
  is_http_event event = true →
  is_preflight E event = false →
  process_env W !! "RESEND_API_KEY_SECRET_NAME" = Some name →
  name ≠ "" →
  sm_getSecretValue W (VStr name) (t ++ [received E event; GetSecretValue (VStr name)])
    = Throw e →
  ∃ origin,
    handler E W event t =
      (Ok (createResponse E 500 "Internal server error" (Some e) origin),
       t ++ [received E event; GetSecretValue (VStr name); secret_error_logged e;
             failure_logged e]).
Proof.
  intros Hev Hpre Henv Hne Hfetch.
  destruct (http_event_shape E event Hev) as (origin & method & Ho & Hmeth).
  exists origin.
  rewrite (handler_not_preflight E W event origin (VStr method) t Ho Hmeth)
    by (eapply not_preflight_method; eauto).
  rewrite handler_try_run.
  destruct (getResendApiKey_cases (t ++ [received E event]))
    as [[Hunset _]|(name' & Henv' & _ & ->)].
  { unfold env_var in Hunset. rewrite Henv in Hunset. simpl in Hunset.
    destruct (String.eqb_spec name ""); done. }
  assert (name' = name) as -> by congruence.
  cbv zeta. rewrite <- app_assoc. simpl. rewrite Hfetch.
  by rewrite <- !app_assoc.
Qed.

(** X4. [getResendApiKey] does not check what it fetched: for a response
    without a [SecretString] it returns [undefined] and throws nothing. *)
Theorem missing_SecretString_is_not_detected t name props :
  process_env W !! "RESEND_API_KEY_SECRET_NAME" = Some name →
  name ≠ "" →
  sm_getSecretValue W (VStr name) (t ++ [GetSecretValue (VStr name)]) = Ok (VObj props) →
  own_property "SecretString" props = None →
  getResendApiKey E W t = (Ok VUndefined, t ++ [GetSecretValue (VStr name)]).
Proof.
  intros Henv Hne Hfetch Hnone.
  destruct (getResendApiKey_cases t) as [[Hunset _]|(name' & Henv' & _ & ->)].
  { unfold env_var in Hunset. rewrite Henv in Hunset. simpl in Hunset.
    destruct (String.eqb_spec name ""); done. }
  assert (name' = name) as -> by congruence.
  cbv zeta. rewrite Hfetch. simpl. by rewrite Hnone.
Qed.

(** X5. When [new Resend(key)] throws, the handler answers 500 with that
    error; the body is not parsed and the email API is not called. *)
Theorem client_failure_is_reported event t key t1 e :
  is_http_event event = true →
  is_preflight E event = false →
  getResendApiKey E W (t ++ [received E event]) = (Ok key, t1) →
  new_Resend W key = Throw e →
  ∃ origin,
    handler E W event t =
      (Ok (createResponse E 500 "Internal server error" (Some e) origin),
       t1 ++ [failure_logged e]) ∧
    body_parses (t1 ++ [failure_logged e]) = body_parses t ∧
    email_api_calls (t1 ++ [failure_logged e]) = email_api_calls t.
Proof.
  intros Hev Hpre Hkey Hres.
  destruct (http_event_shape E event Hev) as (origin & method & Ho & Hmeth).
  exists origin.
  rewrite (handler_not_preflight E W event origin (VStr method) t Ho Hmeth)
    by (eapply not_preflight_method; eauto).
  rewrite handler_try_run, Hkey, Hres. split; [done|].
  apply getResendApiKey_quiet in Hkey as [Hcalls Hparses]. revert Hcalls Hparses.
  count_calls. by intros -> ->.
Qed.

(** X6. A secret name set to the empty string counts as unset: the handler
    answers 500 with the configuration error and the secret store is not
    called. *)
Theorem empty_secret_name_is_unset event t :
  is_http_event event = true →
  is_preflight E event = false →
  process_env W !! "RESEND_API_KEY_SECRET_NAME" = Some "" →
  ∃ origin,
    handler E W event t =
      (Ok (createResponse E 500 "Internal server error"
             (Some (Error secret_name_unset_message)) origin),
       t ++ [received E event; ConsoleError [LogV (VStr secret_name_unset_message)];
             failure_logged (Error secret_name_unset_message)]).
Proof.
  intros Hev Hpre Henv.
  destruct (http_event_shape E event Hev) as (origin & method & Ho & Hmeth).
  exists origin.
  rewrite (handler_not_preflight E W event origin (VStr method) t Ho Hmeth)
    by (eapply not_preflight_method; eauto).
  rewrite handler_try_run.
  destruct (getResendApiKey_cases (t ++ [received E event]))
    as [[_ ->]|(name & Henv' & Hne & _)].
  - by rewrite <- !app_assoc.
  - congruence.
Qed.

Lemma contact_html_page n e m :
  contact_html E (VStr n) (VStr e) (VStr m) = Ok (contact_page n e m).
Proof. reflexivity. Qed.

End More.

Lemma prefix_append (s t : string) : String.prefix s (s +:+ t) = true.
Proof.
  induction s as [|a s IH]; simpl; [by destruct t|].
  destruct (Ascii.ascii_dec a a); [exact IH|done].
Qed.

Lemma String_includes_here (s t : string) : String_includes (s +:+ t) s = true.
Proof.
  assert (∀ u, String_includes u s = true ∨ String.prefix s u = false) as Hstep.
  { intros u. destruct (String.prefix s u) eqn:Hp; [left|by right].
    destruct u; cbn [String_includes]; by rewrite Hp. }
  destruct (Hstep (s +:+ t)) as [H|H]; [done|]. by rewrite prefix_append in H.
Qed.

Lemma String_includes_append (a s search : string) :
  String_includes s search = true → String_includes (a +:+ s) search = true.
Proof.
  intros H. induction a as [|c a IH]; [done|].
  simpl. rewrite IH. apply orb_true_r.
Qed.


Section More2.
Context (E : engine) (W : world).

(** X7. For a valid request the message handed to the email API has the
    fixed sender, recipient and subject, and its HTML part is the template
    with [name], [email] and [message] inserted as they are: each of them
    occurs in it verbatim, nothing is escaped. *)
Theorem outbound_message_is_verbatim event t b key t1 resend n e m :
  is_http_event event = true →
  is_preflight E event = false →
  parses_to E event b →
  valid_contact b = true →
  field "name" b = VStr n →
  field "email" b = VStr e →
  field "message" b = VStr m →
  getResendApiKey E W (t ++ [received E event]) = (Ok key, t1) →
  new_Resend W key = Ok resend →
  (∃ r t',
     handler E W event t = (Ok r, t') ∧
     email_api_calls t' =
       email_api_calls t ++
       [(resend, {| from := "portfoliocontact@resend.dev";
                    to := "fialloschris1@gmail.com";
                    subject := "New Contact Form Submission";
                    html := contact_page n e m |})]) ∧
  String_includes (contact_page n e m) n = true ∧
  String_includes (contact_page n e m) e = true ∧
  String_includes (contact_page n e m) m = true.
Proof.
  intros Hev Hpre Hparse Hvalid Hn He Hm Hkey Hres.
  split.
  - destruct (valid_contact_inv b Hvalid) as (Hvn & Hve & Hvm).
    destruct (handler_dispatch E W event t b key t1 resend) as (origin & _ & ->);
      auto using field_nonempty_string_truthy.
    rewrite Hn, He, Hm, contact_html_page. cbv zeta.
    apply getResendApiKey_quiet in Hkey as [Hcalls _].
    rewrite email_api_calls_app in Hcalls. simpl in Hcalls. rewrite app_nil_r in Hcalls.
    destruct (emails_send W _ _ _) as [result|err];
      (do 2 eexists; split; [reflexivity|]);
      rewrite !email_api_calls_app, Hcalls; simpl; by rewrite !app_nil_r.
  - unfold contact_page. split; [|split].
    + do 2 apply String_includes_append. apply String_includes_here.
    + do 10 apply String_includes_append. apply String_includes_here.
    + do 14 apply String_includes_append. apply String_includes_here.
Qed.

(** X8. When the email API rejects the dispatch of a valid request, the
    handler answers 500 with that error; the email API was called exactly
    once (no retry) and the secret store is not consulted again. *)
Theorem dispatch_failure_is_reported event t b key t1 resend err :
  is_http_event event = true →
  is_preflight E event = false →
  parses_to E event b →
  valid_contact b = true →
  getResendApiKey E W (t ++ [received E event]) = (Ok key, t1) →
  new_Resend W key = Ok resend →
  (∀ payload t2, emails_send W resend payload t2 = Throw err) →
  ∃ origin t' payload,
    handler E W event t =
      (Ok (createResponse E 500 "Internal server error" (Some err) origin), t') ∧
    email_api_calls t' = email_api_calls t ++ [(resend, payload)] ∧
    secret_store_calls t' = secret_store_calls t1.
Proof.
  intros Hev Hpre Hparse Hvalid Hkey Hres Hsend.
  destruct (valid_contact_inv b Hvalid) as (Hn & He & Hm).
  destruct (handler_dispatch E W event t b key t1 resend) as (origin & _ & ->);
    auto using field_nonempty_string_truthy.
  destruct (field_nonempty_string_inv _ _ Hn) as (n & -> & _).
  destruct (field_nonempty_string_inv _ _ He) as (e & -> & _).
  destruct (field_nonempty_string_inv _ _ Hm) as (m & -> & _).
  rewrite contact_html_page. cbv zeta. rewrite Hsend.
  apply getResendApiKey_quiet in Hkey as [Hcalls _].
  rewrite email_api_calls_app in Hcalls. simpl in Hcalls. rewrite app_nil_r in Hcalls.
  exists origin. do 2 eexists. split; [reflexivity|].
  rewrite !email_api_calls_app, !secret_store_calls_app, Hcalls. simpl.
  by rewrite !app_nil_r.
Qed.

(** X9. Every response is one of three: the preflight answer (200), the
    success answer (200) or the failure answer (500); the [error] field is
    there exactly on the 500 answer, and only a preflight request gets the
    preflight answer. *)
Theorem response_shapes event t r t' :
  handler E W event t = (Ok r, t') →
  ∃ origin,
    (is_preflight E event = true ∧
     r = createResponse E 200 "Preflight request successful" None origin) ∨
    (is_preflight E event = false ∧
     r = createResponse E 200 "Email sent successfully" None origin) ∨
    (is_preflight E event = false ∧
     ∃ e, r = createResponse E 500 "Internal server error" (Some e) origin).
Proof.
  rewrite handler_cases. unfold is_preflight.
  destruct (request_origin E event) as [origin|e]; [|done].
  destruct (request_method E event) as [method|e]; [|done].
  destruct (strict_eq_string method "OPTIONS").
  - intros ?; simplify_eq. exists origin. by left.
  - destruct (handler_try _ _ _ _ _) as [[r0|e] t0] eqn:Htry; intros ?; simplify_eq;
      exists origin.
    + right; left. split; [done|]. by eapply handler_try_ok.
    + right; right. eauto.
Qed.

(** X10. [validateBody] logs one line and returns its argument unchanged
    exactly when [name], [email] and [message] are truthy; otherwise it
    throws "Missing required fields", or the [TypeError] of the
    destructuring when the body is [null] or [undefined]. *)
Theorem validateBody_accepts_exactly_truthy b t :
  (validateBody E b t).2 = t ++ [validating E b] ∧
  (missing_required_field b = false → (validateBody E b t).1 = Ok b) ∧
  (missing_required_field b = true →
   (validateBody E b t).1 =
     Throw (match b with
            | VUndefined | VNull => TypeError E (DestructureOf b)
            | _ => Error "Missing required fields"
            end)).
Proof.
  rewrite validateBody_decides. split; [done|]. split; intros H.
  - simpl. rewrite H. by destruct b.
  - simpl. rewrite H. by destruct b.
Qed.

(** X11. The stack gives the email function the variable RESEND_API_KEY
    only.  In an environment made of it and of runtime variables that do
    not define RESEND_API_KEY_SECRET_NAME, every non-OPTIONS request is
    answered 500 with the configuration error, and no collaborator is
    called. *)
Theorem deployed_function_lacks_secret_name synth runtime event t :
  process_env W = Stack.emailFunction_environment synth ∪ runtime →
  runtime !! "RESEND_API_KEY_SECRET_NAME" = None →
  is_http_event event = true →
  is_preflight E event = false →
  ∃ origin,
    handler E W event t =
      (Ok (createResponse E 500 "Internal server error"
             (Some (Error secret_name_unset_message)) origin),
       t ++ [received E event; ConsoleError [LogV (VStr secret_name_unset_message)];
             failure_logged (Error secret_name_unset_message)]).
Proof.
  intros Henv Hrun Hev Hpre.
  assert (process_env W !! "RESEND_API_KEY_SECRET_NAME" = None) as Hnone.
  { rewrite Henv. apply lookup_union_None. split; [|done].
    unfold Stack.emailFunction_environment. by apply lookup_singleton_ne. }
  destruct (http_event_shape E event Hev) as (origin & method & Ho & Hmeth).
  exists origin.
  rewrite (handler_not_preflight E W event origin (VStr method) t Ho Hmeth)
    by (eapply not_preflight_method; eauto).
  rewrite handler_try_run, getResendApiKey_unset by done.
  by rewrite <- !app_assoc.
Qed.

End More2.

(** ** Computations that ignore the history *)

Lemma uniform_ret {A} (a : A) : uniform (mret a : M A).
Proof. exists (Ok a), []. intros t. by rewrite app_nil_r. Qed.

Lemma uniform_throw {A} (e : error) : uniform (throw e : M A).
Proof. exists (Throw e), []. intros t. by rewrite app_nil_r. Qed.

Lemma uniform_lift {A} (r : result A) : uniform (lift r).
Proof. exists r, []. intros t. by rewrite app_nil_r. Qed.

Lemma uniform_emit ev : uniform (emit ev).
Proof. by exists (Ok tt), [ev]. Qed.

Lemma uniform_bind {A B} (m : M A) (k : A → M B) :
  uniform m → (∀ a, uniform (k a)) → uniform (m ≫= k).
Proof.
  intros (r & evs & Hm) Hk. destruct r as [a|e].
  - destruct (Hk a) as (r' & evs' & Hka). exists r', (evs ++ evs'). intros t.
    unfold mbind, M_bind. by rewrite Hm, Hka, app_assoc.
  - exists (Throw e), evs. intros t. unfold mbind, M_bind. by rewrite Hm.
Qed.

Lemma uniform_try_catch {A} (m : M A) (h : error → M A) :
  uniform m → (∀ e, uniform (h e)) → uniform (try_catch m h).
Proof.
  intros (r & evs & Hm) Hh. destruct r as [a|e].
  - exists (Ok a), evs. intros t. unfold try_catch. by rewrite Hm.
  - destruct (Hh e) as (r' & evs' & Hhe). exists r', (evs ++ evs'). intros t.
    unfold try_catch. by rewrite Hm, Hhe, app_assoc.
Qed.

Ltac uniform_step :=
  first
    [ apply uniform_ret | apply uniform_throw | apply uniform_lift | apply uniform_emit
    | apply uniform_bind; [|intros ?]
    | apply uniform_try_catch; [|intros ?]
    | match goal with
      | |- uniform (if ?c then _ else _) => destruct c
      | |- uniform (let '(_, _) := ?p in _) => destruct p
      end ].

Section Memoryless.
Context (E : engine) (W : world) (Hmem : memoryless W).

Lemma uniform_getSecretValue id : uniform (await_getSecretValue W id).
Proof.
  exists (sm_getSecretValue W id []), [GetSecretValue id]. intros t.
  unfold await_getSecretValue. cbv zeta. f_equal. apply Hmem.
Qed.

Lemma uniform_emails_send client payload : uniform (await_emails_send W client payload).
Proof.
  exists (emails_send W client payload []), [EmailsSend client payload]. intros t.
  unfold await_emails_send. cbv zeta. f_equal. apply Hmem.
Qed.

Lemma uniform_handler_try event origin : uniform (handler_try E W event origin).
Proof.
  unfold handler_try, getResendApiKey, parseEventBody, validateBody, sendEmail,
    console_log, console_error.
  repeat first [ apply uniform_getSecretValue | apply uniform_emails_send | uniform_step ].
Qed.

End Memoryless.

(** X12. The handler keeps no state between invocations: with
    collaborators whose answers do not depend on the history, the response
    and the effects of an invocation are the same from any history. *)
Theorem handler_is_stateless E W event :
  memoryless W →
  ∃ r evs, ∀ t, handler E W event t = (r, t ++ evs).
Proof.
  intros Hmem. change (uniform (handler E W event)).
  unfold handler, console_log, console_error.
  repeat first [ apply uniform_handler_try; exact Hmem | uniform_step ].
Qed.

(** ** The viewer-request functions *)

Lemma String_endsWith_append (s : string) (c : ascii) (t search : string) :
  String.length search = 1%nat →
  String_endsWith (s +:+ String c t) search = String_endsWith (String c t) search.
Proof.
  intros Hlen. induction s as [|a s IH]; [done|].
  transitivity (String.eqb (String a (s +:+ String c t)) search
                || String_endsWith (s +:+ String c t) search); [reflexivity|].
  rewrite IH.
  destruct search as [|b [|b' search]]; try discriminate.
  assert (String.eqb (String a (s +:+ String c t)) (String b "") = false) as ->; [|done].
  simpl. destruct (Ascii.eqb a b); [|done]. by destruct s.
Qed.

Lemma names_a_file_append (s suffix : string) :
  String_includes suffix "." = true →
  String_endsWith suffix "/" = false →
  String_includes (s +:+ suffix) "." = true ∧ String_endsWith (s +:+ suffix) "/" = false.
Proof.
  intros Hdot Hslash. split; [by apply String_includes_append|].
  destruct suffix as [|c t]; [discriminate|].
  by rewrite String_endsWith_append.
Qed.

(** X13. The viewer-request function of the stack with the email function
    always hands on a [uri] that contains a dot and does not end in a
    slash, and applying it again changes nothing. *)
Theorem url_rewrite_names_a_file (event : Stack.viewer_event) :
  let r := Stack.handler event in
  String_includes (Stack.uri r) "." = true ∧
  String_endsWith (Stack.uri r) "/" = false ∧
  Stack.handler {| Stack.request := r; Stack.event_rest := Stack.event_rest event |} = r.
Proof.
  cbv zeta.
  assert (String_includes (Stack.uri (Stack.handler event)) "." = true ∧
          String_endsWith (Stack.uri (Stack.handler event)) "/" = false) as [Hdot Hslash].
  { unfold Stack.handler. cbv zeta.
    destruct (String_endsWith (Stack.uri (Stack.request event)) "/") eqn:Hs; simpl; [done|].
    by destruct (String_includes (Stack.uri (Stack.request event)) ".") eqn:Hd. }
  split; [done|]. split; [done|].
  unfold Stack.handler at 1. cbv zeta. simpl. by rewrite Hslash, Hdot.
Qed.

(** X14. That function changes nothing but the [uri]; the [uri] is kept
    exactly when it contains a dot and does not end in a slash, and is
    replaced by [/index.html] otherwise. *)
Theorem url_rewrite_falls_back_to_index (event : Stack.viewer_event) :
  let r := Stack.handler event in
  Stack.request_rest r = Stack.request_rest (Stack.request event) ∧
  (Stack.uri r = Stack.uri (Stack.request event) ∨ Stack.uri r = "/index.html") ∧
  (Stack.uri r = Stack.uri (Stack.request event) ↔
   (String_includes (Stack.uri (Stack.request event)) "." = true ∧
    String_endsWith (Stack.uri (Stack.request event)) "/" = false)).
Proof.
  cbv zeta. unfold Stack.handler. cbv zeta.
  destruct (String_endsWith (Stack.uri (Stack.request event)) "/") eqn:Hslash; simpl.
  - split; [done|]. split; [by right|]. split; [|by intros [_ ?]].
    intros Heq. rewrite <- Heq in Hslash. discriminate.
  - destruct (String_includes (Stack.uri (Stack.request event)) ".") eqn:Hdot; simpl.
    + split; [done|]. split; [by left|]. done.
    + split; [done|]. split; [by right|]. split; [|by intros [? _]].
      intros Heq. rewrite <- Heq in Hdot. discriminate.
Qed.

(** X15. The viewer-request function of [lib/portfolio-2.0-cdk-stack.ts]
    always hands on a [uri] that contains a dot and does not end in a
    slash, and applying it again changes nothing. *)
Theorem url_append_names_a_file (event : Stack.viewer_event) :
  let r := StackLib.handler event in
  String_includes (Stack.uri r) "." = true ∧
  String_endsWith (Stack.uri r) "/" = false ∧
  StackLib.handler {| Stack.request := r; Stack.event_rest := Stack.event_rest event |} = r.
Proof.
  cbv zeta.
  assert (∀ r : Stack.viewer_request,
            String_includes (Stack.uri r) "." = true →
            String_endsWith (Stack.uri r) "/" = false →
            StackLib.handler
              {| Stack.request := r; Stack.event_rest := Stack.event_rest event |} = r) as Hfix.
  { intros r Hdot Hslash. unfold StackLib.handler. cbv zeta. simpl.
    by rewrite Hslash, Hdot. }
  assert (String_includes (Stack.uri (StackLib.handler event)) "." = true ∧
          String_endsWith (Stack.uri (StackLib.handler event)) "/" = false) as [Hdot Hslash].
  { unfold StackLib.handler. cbv zeta.
    destruct (String_endsWith (Stack.uri (Stack.request event)) "/") eqn:Hs; simpl.
    - by apply names_a_file_append.
    - destruct (String_includes (Stack.uri (Stack.request event)) ".") eqn:Hd; simpl.
      + done.
      + by apply names_a_file_append. }
  split; [done|]. split; [done|]. by apply Hfix.
Qed.


(** X17. Two different environments never share the site domain, the
    bucket name, the pipeline name, the source branch or the allowed
    origin; every site domain lies in the hosted zone and the bucket is
    named after it. *)
Theorem environments_do_not_collide (e1 e2 : Stack.environment) :
  e1 ≠ e2 →
  Stack.fullDomain e1 ≠ Stack.fullDomain e2 ∧
  Stack.bucketName e1 ≠ Stack.bucketName e2 ∧
  Stack.pipelineName e1 ≠ Stack.pipelineName e2 ∧
  Stack.branch e1 ≠ Stack.branch e2 ∧
  Stack.allowedOrigins e1 ≠ Stack.allowedOrigins e2 ∧
  String_endsWith (Stack.fullDomain e1) Stack.domainName = true ∧
  Stack.bucketName e1 = Stack.fullDomain e1 +:+ "-website".
Proof.
  intros Hne. destruct e1, e2; try done; repeat split; discriminate.
Qed.

(** X18. A payload that lacks [headers], or has them but lacks
    [requestContext], is not caught by the handler: reading the origin or
    the method throws outside the guarded block, the promise is rejected
    with that [TypeError], and only the event was logged. *)
Theorem payload_without_envelope_rejects (E : engine) (W : world)
    (props : list (string * value)) (t : trace) :
  (own_property "headers" props = None →
   handler E W (VObj props) t =
     (Throw (TypeError E (ReadPropertyOf VUndefined "origin")),
      t ++ [received E (VObj props)])) ∧
  (∀ hs,
     own_property "headers" props = Some (VObj hs) →
     own_property "requestContext" props = None →
     handler E W (VObj props) t =
       (Throw (TypeError E (ReadPropertyOf VUndefined "http")),
        t ++ [received E (VObj props)])).
Proof.
  split.
  - intros Hh. rewrite handler_cases.
    unfold request_origin, get_prop, mbind, result_bind. by rewrite Hh.
  - intros hs Hh Hrc. rewrite handler_cases.
    unfold request_origin, request_method, get_prop, mbind, result_bind.
    rewrite Hh, Hrc. simpl. by destruct (truthy _).
Qed.

(** ** The further statements at concrete requests *)


Lemma success_means_dispatched_witness :
  statusCode (createResponse Sample.builtins 200 "Email sent successfully" None VUndefined)
    = 200 ∧
  is_preflight Sample.builtins Sample.post_alice = false ∧
  ∃ t',
    handler Sample.builtins Sample.working Sample.post_alice [] =
      (Ok (createResponse Sample.builtins 200 "Email sent successfully" None VUndefined), t') ∧
    ∃ name client html result b t2,
      secret_store_calls t' = secret_store_calls [] ++ [VStr name] ∧
      email_api_calls t' = email_api_calls [] ++ [(client, contact_email html)] ∧
      emails_send Sample.working client (contact_email html) t2 = Ok result ∧
      parses_to Sample.builtins Sample.post_alice b ∧
      missing_required_field b = false.
Proof.
  split; [reflexivity|]. split; [reflexivity|].
  exists (handler Sample.builtins Sample.working Sample.post_alice []).2.
  split; [vm_compute; reflexivity|].
  apply (success_means_dispatched Sample.builtins Sample.working Sample.post_alice []
           (createResponse Sample.builtins 200 "Email sent successfully" None VUndefined)).
  - vm_compute. reflexivity.
  - reflexivity.
  - reflexivity.
Defined.

Lemma secret_fetch_failure_is_reported_witness :
  is_http_event Sample.post_alice = true ∧
  is_preflight Sample.builtins Sample.post_alice = false ∧
  process_env SampleFailures.store_down !! "RESEND_API_KEY_SECRET_NAME"
    = Some "resend-api-key" ∧
  ∃ origin,
    handler Sample.builtins SampleFailures.store_down Sample.post_alice [] =
      (Ok (createResponse Sample.builtins 500 "Internal server error"
             (Some {| err_name := "AccessDeniedException"; err_message := "not authorized" |})
             origin),
       [] ++ [received Sample.builtins Sample.post_alice;
              GetSecretValue (VStr "resend-api-key");
              secret_error_logged
                {| err_name := "AccessDeniedException"; err_message := "not authorized" |};
              failure_logged
                {| err_name := "AccessDeniedException"; err_message := "not authorized" |}]).
Proof.
  do 3 (split; [reflexivity|]).
  apply (secret_fetch_failure_is_reported Sample.builtins SampleFailures.store_down
           Sample.post_alice [] "resend-api-key").
  - reflexivity.
  - reflexivity.
  - reflexivity.
  - discriminate.
  - reflexivity.
Defined.

Lemma missing_SecretString_is_not_detected_witness :
  process_env SampleFailures.binary_secret !! "RESEND_API_KEY_SECRET_NAME"
    = Some "resend-api-key" ∧
  getResendApiKey Sample.builtins SampleFailures.binary_secret [] =
    (Ok VUndefined, [] ++ [GetSecretValue (VStr "resend-api-key")]).
Proof.
  split; [reflexivity|].
  apply (missing_SecretString_is_not_detected Sample.builtins SampleFailures.binary_secret []
           "resend-api-key" [("Name", VStr "resend-api-key")]).
  - reflexivity.
  - discriminate.
  - reflexivity.
  - reflexivity.
Defined.

Lemma client_failure_is_reported_witness :
  is_http_event Sample.post_alice = true ∧
  is_preflight Sample.builtins Sample.post_alice = false ∧
  new_Resend SampleFailures.binary_secret VUndefined = Throw (Error "Missing API key") ∧
  ∃ origin t1,
    handler Sample.builtins SampleFailures.binary_secret Sample.post_alice [] =
      (Ok (createResponse Sample.builtins 500 "Internal server error"
             (Some (Error "Missing API key")) origin),
       t1 ++ [failure_logged (Error "Missing API key")]) ∧
    body_parses (t1 ++ [failure_logged (Error "Missing API key")]) = body_parses [] ∧
    email_api_calls (t1 ++ [failure_logged (Error "Missing API key")]) = email_api_calls [].
Proof.
  do 3 (split; [reflexivity|]).
  destruct (client_failure_is_reported Sample.builtins SampleFailures.binary_secret
              Sample.post_alice [] VUndefined
              [received Sample.builtins Sample.post_alice;
               GetSecretValue (VStr "resend-api-key")]
              (Error "Missing API key")) as [origin H].
  - reflexivity.
  - reflexivity.
  - reflexivity.
  - reflexivity.
  - exists origin. eexists. exact H.
Defined.

Lemma empty_secret_name_is_unset_witness :
  is_http_event Sample.post_alice = true ∧
  is_preflight Sample.builtins Sample.post_alice = false ∧
  process_env SampleFailures.empty_name !! "RESEND_API_KEY_SECRET_NAME" = Some "" ∧
  ∃ origin,
    handler Sample.builtins SampleFailures.empty_name Sample.post_alice [] =
      (Ok (createResponse Sample.builtins 500 "Internal server error"
             (Some (Error secret_name_unset_message)) origin),
       [] ++ [received Sample.builtins Sample.post_alice;
              ConsoleError [LogV (VStr secret_name_unset_message)];
              failure_logged (Error secret_name_unset_message)]).
Proof.
  do 3 (split; [reflexivity|]).
  apply (empty_secret_name_is_unset Sample.builtins SampleFailures.empty_name
           Sample.post_alice []); reflexivity.
Defined.

Lemma outbound_message_is_verbatim_witness :
  is_http_event Sample.post_alice = true ∧
  valid_contact Sample.alice = true ∧
  (∃ r t',
     handler Sample.builtins Sample.working Sample.post_alice [] = (Ok r, t') ∧
     email_api_calls t' =
       email_api_calls [] ++
       [({| resend_key := VStr "re_123" |},
         {| from := "portfoliocontact@resend.dev";
            to := "fialloschris1@gmail.com";
            subject := "New Contact Form Submission";
            html := contact_page "Alice" "a@example.com" "hi" |})]) ∧
  String_includes (contact_page "Alice" "a@example.com" "hi") "Alice" = true ∧
  String_includes (contact_page "Alice" "a@example.com" "hi") "a@example.com" = true ∧
  String_includes (contact_page "Alice" "a@example.com" "hi") "hi" = true.
Proof.
  do 2 (split; [reflexivity|]).
  apply (outbound_message_is_verbatim Sample.builtins Sample.working Sample.post_alice []
           Sample.alice (VStr "re_123")
           [received Sample.builtins Sample.post_alice; GetSecretValue (VStr "resend-api-key")]
           {| resend_key := VStr "re_123" |} "Alice" "a@example.com" "hi").
  - reflexivity.
  - reflexivity.
  - intros t. reflexivity.
  - reflexivity.
  - reflexivity.
  - reflexivity.
  - reflexivity.
  - reflexivity.
  - reflexivity.
Defined.

Lemma dispatch_failure_is_reported_witness :
  is_http_event Sample.post_alice = true ∧
  valid_contact Sample.alice = true ∧
  ∃ origin t' payload,
    handler Sample.builtins SampleFailures.api_down Sample.post_alice [] =
      (Ok (createResponse Sample.builtins 500 "Internal server error"
             (Some {| err_name := "Error"; err_message := "rate limit exceeded" |}) origin),
       t') ∧
    email_api_calls t' = email_api_calls [] ++ [({| resend_key := VStr "re_123" |}, payload)] ∧
    secret_store_calls t' =
      secret_store_calls
        [received Sample.builtins Sample.post_alice; GetSecretValue (VStr "resend-api-key")].
Proof.
  do 2 (split; [reflexivity|]).
  apply (dispatch_failure_is_reported Sample.builtins SampleFailures.api_down Sample.post_alice
           [] Sample.alice (VStr "re_123")
           [received Sample.builtins Sample.post_alice; GetSecretValue (VStr "resend-api-key")]
           {| resend_key := VStr "re_123" |}).
  - reflexivity.
  - reflexivity.
  - intros t. reflexivity.
  - reflexivity.
  - reflexivity.
  - reflexivity.
  - intros payload t2. reflexivity.
Defined.

Lemma response_shapes_witness :
  ∃ r t',
    handler Sample.builtins Sample.working Sample.post_no_message [] = (Ok r, t') ∧
    ∃ origin,
      (is_preflight Sample.builtins Sample.post_no_message = true ∧
       r = createResponse Sample.builtins 200 "Preflight request successful" None origin) ∨
      (is_preflight Sample.builtins Sample.post_no_message = false ∧
       r = createResponse Sample.builtins 200 "Email sent successfully" None origin) ∨
      (is_preflight Sample.builtins Sample.post_no_message = false ∧
       ∃ e, r = createResponse Sample.builtins 500 "Internal server error" (Some e) origin).
Proof.
  exists (createResponse Sample.builtins 500 "Internal server error"
            (Some (Error "Missing required fields")) VUndefined).
  eexists. split; [vm_compute; reflexivity|].
  eapply (response_shapes Sample.builtins Sample.working Sample.post_no_message []).
  vm_compute. reflexivity.
Defined.

Lemma deployed_function_lacks_secret_name_witness :
  process_env SampleFailures.deployed =
    Stack.emailFunction_environment {[ "RESEND_API_KEY" := "re_123" ]}
    ∪ SampleFailures.runtime_variables ∧
  SampleFailures.runtime_variables !! "RESEND_API_KEY_SECRET_NAME" = None ∧
  is_http_event Sample.post_alice = true ∧
  is_preflight Sample.builtins Sample.post_alice = false ∧
  ∃ origin,
    handler Sample.builtins SampleFailures.deployed Sample.post_alice [] =
      (Ok (createResponse Sample.builtins 500 "Internal server error"
             (Some (Error secret_name_unset_message)) origin),
       [] ++ [received Sample.builtins Sample.post_alice;
              ConsoleError [LogV (VStr secret_name_unset_message)];
              failure_logged (Error secret_name_unset_message)]).
Proof.
  do 4 (split; [reflexivity|]).
  apply (deployed_function_lacks_secret_name Sample.builtins SampleFailures.deployed
           {[ "RESEND_API_KEY" := "re_123" ]} SampleFailures.runtime_variables
           Sample.post_alice []); reflexivity.
Defined.

Lemma handler_is_stateless_witness :
  memoryless Sample.working ∧
  ∃ r evs, ∀ t, handler Sample.builtins Sample.working Sample.post_alice t = (r, t ++ evs).
Proof.
  assert (memoryless Sample.working) as Hmem by (split; intros; reflexivity).
  split; [exact Hmem|].
  apply (handler_is_stateless Sample.builtins Sample.working Sample.post_alice Hmem).
Defined.

Lemma environments_do_not_collide_witness :
  Stack.dev ≠ Stack.prod ∧
  Stack.fullDomain Stack.dev ≠ Stack.fullDomain Stack.prod ∧
  Stack.bucketName Stack.dev ≠ Stack.bucketName Stack.prod ∧
  Stack.pipelineName Stack.dev ≠ Stack.pipelineName Stack.prod ∧
  Stack.branch Stack.dev ≠ Stack.branch Stack.prod ∧
  Stack.allowedOrigins Stack.dev ≠ Stack.allowedOrigins Stack.prod ∧
  String_endsWith (Stack.fullDomain Stack.dev) Stack.domainName = true ∧
  Stack.bucketName Stack.dev = Stack.fullDomain Stack.dev +:+ "-website".
Proof.
  split; [discriminate|].
  apply (environments_do_not_collide Stack.dev Stack.prod). discriminate.
Defined.

Lemma parse_failure_is_reported_witness :
  is_http_event Sample.post_malformed = true ∧
  is_preflight Sample.builtins Sample.post_malformed = false ∧
  ∃ r t' e',
    handler Sample.builtins Sample.working Sample.post_malformed [] = (Ok r, t') ∧
    statusCode r = 500 ∧
    body r = JSON_stringify Sample.builtins
               (VObj [("message", VStr "Internal server error");
                      ("error", VStr (Error_toString e'))]) ∧
    email_api_calls t' = email_api_calls [] ∧
    ∀ key t1 resend,
      getResendApiKey Sample.builtins Sample.working
        ([] ++ [received Sample.builtins Sample.post_malformed]) = (Ok key, t1) →
      new_Resend Sample.working key = Ok resend →
      e' = {| err_name := "SyntaxError"; err_message := "Unexpected token" |}.
Proof.
  do 2 (split; [reflexivity|]).
  apply (parse_failure_is_reported Sample.builtins Sample.working Sample.post_malformed []).
  - reflexivity.
  - reflexivity.
  - intros t0. reflexivity.
Defined.

(** X20. When a field that passed validation cannot be converted to text,
    the template of [sendEmail] throws: the handler answers 500 with that
    error, and the email API is not called. *)
Theorem conversion_failure_is_reported (E : engine) (W : world) event t b key t1 resend e :
  is_http_event event = true →
  is_preflight E event = false →
  parses_to E event b →
  field_truthy "name" b = true →
  field_truthy "email" b = true →
  field_truthy "message" b = true →
  getResendApiKey E W (t ++ [received E event]) = (Ok key, t1) →
  new_Resend W key = Ok resend →
  contact_html E (field "name" b) (field "email" b) (field "message" b) = Throw e →
  ∃ origin t',
    handler E W event t =
      (Ok (createResponse E 500 "Internal server error" (Some e) origin), t') ∧
    email_api_calls t' = email_api_calls t.
Proof.
  intros Hev Hpre Hparse Hn He Hm Hkey Hres Hhtml.
  destruct (handler_dispatch E W event t b key t1 resend) as (origin & _ & ->); auto.
  rewrite Hhtml. cbv zeta.
  apply getResendApiKey_quiet in Hkey as [Hcalls _].
  rewrite email_api_calls_app in Hcalls. simpl in Hcalls. rewrite app_nil_r in Hcalls.
  exists origin. eexists. split; [reflexivity|].
  rewrite !email_api_calls_app, Hcalls. simpl. by rewrite !app_nil_r.
Qed.

Lemma conversion_failure_is_reported_witness :
  is_http_event Sample.post_shadowed = true ∧
  field_truthy "name" Sample.shadowed = true ∧
  contact_html Sample.builtins (field "name" Sample.shadowed) (field "email" Sample.shadowed)
    (field "message" Sample.shadowed) = Throw (TypeError Sample.builtins ToPrimitive) ∧
  ∃ origin t',
    handler Sample.builtins Sample.working Sample.post_shadowed [] =
      (Ok (createResponse Sample.builtins 500 "Internal server error"
             (Some (TypeError Sample.builtins ToPrimitive)) origin), t') ∧
    email_api_calls t' = email_api_calls [].
Proof.
  do 3 (split; [reflexivity|]).
  apply (conversion_failure_is_reported Sample.builtins Sample.working Sample.post_shadowed []
           Sample.shadowed (VStr "re_123")
           [received Sample.builtins Sample.post_shadowed;
            GetSecretValue (VStr "resend-api-key")]
           {| resend_key := VStr "re_123" |}).
  - reflexivity.
  - reflexivity.
  - intros t. reflexivity.
  - reflexivity.
  - reflexivity.
  - reflexivity.
  - reflexivity.
  - reflexivity.
  - reflexivity.
Defined.
